(** * OCR classification and multi-pass extraction pipeline

    Shallow embedding of
      ocr_service/core/image_processor.py   (preprocess_image,
                                             detect_handwriting_texture)
      ocr_service/services/ocr_service_v2.py (class OCRService)

    Conventions of the embedding.
    - Python numbers (int, float, numpy scalars) are exact rationals [Q]:
      a decimal literal denotes its decimal value, [np.pi] denotes the
      binary64 constant, and no rounding of intermediate results is modelled.
    - A Python [str] is a [string] of ASCII characters.
    - An exception is the string [str(e)]; a computation that may raise has
      type [Exc A], [inl] carrying the message.
    - The external libraries (requests, pypdf, PyMuPDF, OpenCV, pytesseract)
      are the fields of [Env].  Every call to one of them is appended to a
      trace, and so is every entry into a function of the repository that
      the properties speak about. *)

From Stdlib Require Import ZArith QArith Qabs Qround List String Ascii Bool Lia Lqa.
From Stdlib Require Import DecimalString.
Import ListNotations.

Local Open Scope string_scope.

(** ** Python strings *)

Module PyStr.

(** [str.isspace] on one ASCII character: TAB, LF, VT, FF, CR, FS, GS, RS,
    US and SPACE. *)
Definition is_space (a : ascii) : bool :=
  let n := nat_of_ascii a in
  ((9 <=? n)%nat && (n <=? 13)%nat) || ((28 <=? n)%nat && (n <=? 32)%nat).

Fixpoint lstrip (s : string) : string :=
  match s with
  | EmptyString => EmptyString
  | String a r => if is_space a then lstrip r else s
  end.

Fixpoint rstrip (s : string) : string :=
  match s with
  | EmptyString => EmptyString
  | String a r =>
      match rstrip r with
      | EmptyString => if is_space a then EmptyString else String a EmptyString
      | r' => String a r'
      end
  end.

(** [s.strip()] *)
Definition strip (s : string) : string := rstrip (lstrip s).

(** truthiness of a string: [if s:] *)
Definition truthy (s : string) : bool :=
  match s with EmptyString => false | _ => true end.

Definition is_digit (a : ascii) : bool :=
  let n := nat_of_ascii a in (48 <=? n)%nat && (n <=? 57)%nat.

Fixpoint all_digits (s : string) : bool :=
  match s with
  | EmptyString => true
  | String a r => is_digit a && all_digits r
  end.

(** [s.isdigit()]: non-empty and made of digits only. *)
Definition isdigit (s : string) : bool := truthy s && all_digits s.

(** value of a digit string read left to right, [acc] the value so far *)
Fixpoint digits_value (acc : Z) (s : string) : Z :=
  match s with
  | EmptyString => acc
  | String a r => digits_value (10 * acc + (Z.of_nat (nat_of_ascii a) - 48))%Z r
  end.

(** the digits of an integer literal, where single underscores may stand
    between digits; [prev_digit] tells whether the last character read was
    a digit *)
Fixpoint int_body (prev_digit : bool) (acc : Z) (s : string) : option Z :=
  match s with
  | EmptyString => if prev_digit then Some acc else None
  | String a r =>
      if is_digit a
      then int_body true (10 * acc + (Z.of_nat (nat_of_ascii a) - 48))%Z r
      else if Ascii.eqb a "_"
           then (if prev_digit then int_body false acc r else None)
           else None
  end.

(** ["\n".join(l)] *)
Definition join_lines (l : list string) : string :=
  String.concat (String "010" EmptyString) l.

End PyStr.

Definition NL : string := String "010" EmptyString.

(** ** Python values found in the [conf] column of pytesseract's DICT output *)

Inductive PyVal : Type :=
| PyInt (z : Z)
| PyStr (s : string).

(** [str(v)] *)
Definition py_str (v : PyVal) : string :=
  match v with
  | PyInt z => NilZero.string_of_int (Z.to_int z)
  | PyStr s => s
  end.

Definition Exc (A : Type) : Type := (string + A)%type.

(** [int(v)].  Of a string, Python strips the surrounding whitespace, reads
    an optional sign and then digits, between which single underscores
    may stand; anything else raises ValueError. *)
Definition py_int (v : PyVal) : Exc Z :=
  match v with
  | PyInt z => inr z
  | PyStr s =>
      let stripped := PyStr.strip s in
      let '(negative, body) :=
        match stripped with
        | String a r =>
            if Ascii.eqb a "-" then (true, r)
            else if Ascii.eqb a "+" then (false, r)
            else (false, stripped)
        | EmptyString => (false, stripped)
        end in
      match PyStr.int_body false 0%Z body with
      | Some n => inr (if negative then (- n)%Z else n)
      | None => inl ("invalid literal for int() with base 10: '" ++ s ++ "'")
      end
  end.

(** ** Numbers *)

Local Open Scope Q_scope.

Definition sumQ (l : list Q) : Q := fold_right Qplus 0 l.

(** [np.mean(l)] of a non-empty list, as the exact quotient in lowest terms:
    the rounding of the binary64 quotient and the overflow of an element
    beyond the binary64 range are outside the model. *)
Definition np_mean (l : list Q) : Q :=
  Qred (sumQ l / inject_Z (Z.of_nat (List.length l))).

Definition np_mean_Z (l : list Z) : Q := np_mean (map inject_Z l).

(** [np.pi], the binary64 number 3.141592653589793 *)
Definition np_pi : Q := 884279719003555 # 281474976710656.

(** [round(q, 2)]: nearest multiple of 1/100, ties to the even one.  The
    tie is decided on the exact rational; Python decides it on the
    binary64 value, which at a decimal tie lies on one side. *)
Definition round2 (q : Q) : Q :=
  let x := q * 100 in
  let n := Qfloor x in
  let r := x - inject_Z n in
  let m := if Qlt_le_dec r (1 # 2) then n
           else if Qlt_le_dec (1 # 2) r then (n + 1)%Z
           else if Z.even n then n else (n + 1)%Z in
  Qred (inject_Z m / 100).

Definition Qgt_bool (a b : Q) : bool := negb (Qle_bool a b).
Definition Qlt_bool (a b : Q) : bool := negb (Qle_bool b a).
Definition Qge_bool (a b : Q) : bool := Qle_bool b a.

(** ** Computations with a trace *)

Inductive Config : Type :=
| cfg_default          (* no config argument *)
| cfg_psm6_oem3.       (* lang="eng", config="--psm 6 --oem 3" *)

Inductive Func : Type :=
| f_preprocess_image
| f_detect_handwriting_texture
| f_analyze_contour_irregularity
| f_enhanced_handwritten_ocr.

Inductive Event : Type :=
| ev_requests_get
| ev_PdfReader
| ev_fitz_open
| ev_fitz_render (page_num : nat)
| ev_imdecode
| ev_cvtColor
| ev_GaussianBlur
| ev_adaptiveThreshold
| ev_Canny
| ev_Laplacian
| ev_findContours
| ev_convertScaleAbs
| ev_bilateralFilter
| ev_threshold
| ev_image_to_data
| ev_image_to_string (c : Config)
| ev_enter (f : Func).

Definition Trace : Type := list Event.

Definition M (A : Type) : Type := Trace -> Exc A * Trace.

Definition ret {A} (a : A) : M A := fun t => (inr a, t).

Definition raise {A} (e : string) : M A := fun t => (inl e, t).

Definition bind {A B} (m : M A) (f : A -> M B) : M B :=
  fun t =>
    match m t with
    | (inl e, t') => (inl e, t')
    | (inr a, t') => f a t'
    end.

(** a call to an external library: the event is recorded, then the call
    returns or raises *)
Definition call {A} (ev : Event) (x : Exc A) : M A :=
  fun t => (x, (t ++ [ev])%list).

(** entry into a function of the repository *)
Definition enter (f : Func) : M unit := fun t => (inr tt, (t ++ [ev_enter f])%list).

(** [try: m  except Exception as e: h e] *)
Definition try_except {A} (m : M A) (h : string -> M A) : M A :=
  fun t =>
    match m t with
    | (inl e, t') => h e t'
    | (inr a, t') => (inr a, t')
    end.

Notation "x <- m ;; k" := (bind m (fun x => k))
  (at level 61, m at next level, right associativity).
Notation "m ;;; k" := (bind m (fun _ => k))
  (at level 61, right associativity).

(** ** The external libraries *)

(** a numpy array, as its rows *)
Definition ndarray : Type := list (list Z).

Definition bytes : Type := list Byte.byte.

(** what the code reads of a contour: [cv2.arcLength(c, True)] and
    [cv2.contourArea(c)] *)
Record Contour : Type := mkContour { arcLength : Q; contourArea : Q }.

Record Env (Document : Type) : Type := mkEnv {
  (* requests.get(url, ...) ; raise_for_status() ; .content *)
  requests_get : string -> Exc bytes;
  (* PdfReader(io.BytesIO(b)).pages, page.extract_text() of each page *)
  PdfReader_pages : bytes -> Exc (list (option string));
  (* fitz.open("pdf", b) *)
  fitz_open : bytes -> Exc Document;
  (* len(doc) *)
  fitz_len : Document -> nat;
  (* load_page(n), get_pixmap(Matrix(2,2)), PNG, PIL, np.array, RGB2BGR *)
  fitz_render : Document -> nat -> Exc ndarray;
  (* cv2.imdecode(np.frombuffer(b, np.uint8), IMREAD_COLOR); None on failure *)
  cv2_imdecode : bytes -> Exc (option ndarray);
  (* cv2.cvtColor(img, COLOR_BGR2GRAY) *)
  cv2_cvtColor : ndarray -> Exc ndarray;
  (* cv2.GaussianBlur(gray, (5,5), 0) *)
  cv2_GaussianBlur : ndarray -> Exc ndarray;
  (* cv2.adaptiveThreshold(gray, 255, GAUSSIAN_C, BINARY, 31, 2) *)
  cv2_adaptiveThreshold : ndarray -> Exc ndarray;
  (* cv2.Canny(gray, 50, 150) *)
  cv2_Canny : ndarray -> Exc ndarray;
  (* cv2.Laplacian(gray, CV_64F).var() *)
  cv2_Laplacian_var : ndarray -> Exc Q;
  (* cv2.findContours(edges, RETR_EXTERNAL, CHAIN_APPROX_SIMPLE)[0] *)
  cv2_findContours : ndarray -> Exc (list Contour);
  (* cv2.convertScaleAbs(gray, alpha=1.8, beta=35) *)
  cv2_convertScaleAbs : ndarray -> Exc ndarray;
  (* cv2.bilateralFilter(gray, 7, 50, 50) *)
  cv2_bilateralFilter : ndarray -> Exc ndarray;
  (* cv2.threshold(gray, 0, 255, THRESH_BINARY + THRESH_OTSU)[1] *)
  cv2_threshold : ndarray -> Exc ndarray;
  (* pytesseract.image_to_data(img, output_type=DICT)["conf"]; a missing
     "conf" key counts as a failure of the call *)
  image_to_data_conf : ndarray -> Exc (list PyVal);
  (* pytesseract.image_to_string(img, ...) *)
  image_to_string : Config -> ndarray -> Exc string
}.

Arguments requests_get {Document}.
Arguments PdfReader_pages {Document}.
Arguments fitz_open {Document}.
Arguments fitz_len {Document}.
Arguments fitz_render {Document}.
Arguments cv2_imdecode {Document}.
Arguments cv2_cvtColor {Document}.
Arguments cv2_GaussianBlur {Document}.
Arguments cv2_adaptiveThreshold {Document}.
Arguments cv2_Canny {Document}.
Arguments cv2_Laplacian_var {Document}.
Arguments cv2_findContours {Document}.
Arguments cv2_convertScaleAbs {Document}.
Arguments cv2_bilateralFilter {Document}.
Arguments cv2_threshold {Document}.
Arguments image_to_data_conf {Document}.
Arguments image_to_string {Document}.

(** ** Pieces the three recognition passes share *)

(** [[int(conf) for conf in data["conf"]
      if str(conf).isdigit() and int(conf) > 0]]
    [and] does not evaluate [int(conf)] when [isdigit] is false. *)
Fixpoint positive_confs (data : list PyVal) : Exc (list Z) :=
  match data with
  | [] => inr []
  | conf :: rest =>
      if PyStr.isdigit (py_str conf) then
        match py_int conf with
        | inl e => inl e
        | inr n =>
            if (0 <? n)%Z then
              match py_int conf with
              | inl e => inl e
              | inr v =>
                  match positive_confs rest with
                  | inl e => inl e
                  | inr l => inr (v :: l)
                  end
              end
            else positive_confs rest
        end
      else positive_confs rest
  end.

(** [np.mean(confs) if confs else 0.0] *)
Definition mean_or_zero (confs : list Z) : Q :=
  match confs with
  | [] => 0
  | _ => np_mean_Z confs
  end.

Definition mean_or_zeroQ (l : list Q) : Q :=
  match l with
  | [] => 0
  | _ => np_mean l
  end.

(** [texture_detected or contour_score > 0.3] *)
Definition signal (texture_detected : bool) (contour_score : Q) : bool :=
  texture_detected || Qgt_bool contour_score (3 # 10).

(** an exception-raising pure step inside a traced computation *)
Definition lift {A} (x : Exc A) : M A := fun t => (x, t).

(** state of a scanned document after the standard pass and the analysis
    of the structural signals: the local variables [text], [avg_conf],
    [texture_detected], [contour_score] and the image the enhanced pass
    would read *)
Record Scan : Type := mkScan {
  sc_text : string;
  sc_conf : Q;
  sc_texture : bool;
  sc_contour : Q;
  sc_img : ndarray
}.

Record ExtractionResponse : Type := mkResponse {
  url : string;
  file_type : string;
  confidence : Q;
  is_handwritten : bool;
  extracted_text : string
}.

(** the dict [process_from_url] returns *)
Inductive Response : Type :=
| Result (r : ExtractionResponse)
| ErrorResponse (error : string).

(** [x in [a, b, ...]] on strings *)
Definition str_in (x : string) (l : list string) : bool :=
  existsb (String.eqb x) l.

Definition lower_ascii (a : ascii) : ascii :=
  let n := nat_of_ascii a in
  if (65 <=? n)%nat && (n <=? 90)%nat then ascii_of_nat (n + 32) else a.

Fixpoint lower (s : string) : string :=
  match s with
  | EmptyString => EmptyString
  | String a r => String (lower_ascii a) (lower r)
  end.

Fixpoint endswith (s suffix : string) : bool :=
  String.eqb s suffix ||
  match s with
  | EmptyString => false
  | String _ r => endswith r suffix
  end.

(** ** core/image_processor.py *)

Definition shape0 (a : ndarray) : Z := Z.of_nat (List.length a).

Definition shape1 (a : ndarray) : Z :=
  match a with
  | [] => 0%Z
  | row :: _ => Z.of_nat (List.length row)
  end.

(** [np.sum(a > 0)] *)
Definition count_positive (a : ndarray) : Z :=
  fold_right
    (fun row acc => (Z.of_nat (List.length (filter (fun v => (0 <? v)%Z) row)) + acc)%Z)
    0%Z a.

(** [np.sum(edges > 0) / (edges.shape[0] * edges.shape[1])] *)
Definition edge_density (edges : ndarray) : Q :=
  inject_Z (count_positive edges) / inject_Z (shape0 edges * shape1 edges).

Definition edge_threshold : Q := 8 # 100.
Definition texture_threshold : Q := 250.

Section Pipeline.

Variable Document : Type.
Variable env : Env Document.

(** [preprocess_image(img)], lines 153-173; [img] is an array here, never
    [None] *)
Definition preprocess_image (img : ndarray) : M ndarray :=
  enter f_preprocess_image ;;;
  gray <- call ev_cvtColor (cv2_cvtColor env img) ;;
  gray <- call ev_GaussianBlur (cv2_GaussianBlur env gray) ;;
  call ev_adaptiveThreshold (cv2_adaptiveThreshold env gray).

(** [detect_handwriting_texture(image)], lines 176-198 *)
Definition detect_handwriting_texture (image : ndarray) : M bool :=
  enter f_detect_handwriting_texture ;;;
  gray <- call ev_cvtColor (cv2_cvtColor env image) ;;
  edges <- call ev_Canny (cv2_Canny env gray) ;;
  lap_var <- call ev_Laplacian (cv2_Laplacian_var env gray) ;;
  ret (Qgt_bool (edge_density edges) edge_threshold
       || Qgt_bool lap_var texture_threshold).

(** ** services/ocr_service_v2.py, class OCRService *)

(** [download_file_from_url(url)], lines 22-31: the exception is logged and
    raised again *)
Definition download_file_from_url (u : string) : M bytes :=
  try_except (call ev_requests_get (requests_get env u)) (fun e => raise e).

(** [is_pdf_url(url)], line 35 *)
Definition is_pdf_url (u : string) : bool := endswith (lower u) ".pdf".

(** the body of the loop of lines 61-66 for one contour: what it appends *)
Definition irregularity_of (c : Contour) : list Q :=
  let perimeter := arcLength c in
  let area := contourArea c in
  if Qgt_bool area 10 then
    let circularity :=
      (4 * np_pi * area) / (perimeter * perimeter + (1 # 1000000)) in
    [Qabs (1 - circularity)]
  else [].

(** [analyze_contour_irregularity(image)], lines 47-68 *)
Definition analyze_contour_irregularity (image : ndarray) : M Q :=
  enter f_analyze_contour_irregularity ;;;
  gray <- call ev_cvtColor (cv2_cvtColor env image) ;;
  edges <- call ev_Canny (cv2_Canny env gray) ;;
  contours <- call ev_findContours (cv2_findContours env edges) ;;
  match contours with
  | [] => ret 0
  | _ => ret (mean_or_zeroQ (flat_map irregularity_of contours))
  end.

(** [enhanced_handwritten_ocr(image)], lines 71-95 *)
Definition enhanced_handwritten_ocr (image : ndarray) : M (string * Q) :=
  enter f_enhanced_handwritten_ocr ;;;
  try_except
    (gray <- call ev_cvtColor (cv2_cvtColor env image) ;;
     gray <- call ev_convertScaleAbs (cv2_convertScaleAbs env gray) ;;
     gray <- call ev_bilateralFilter (cv2_bilateralFilter env gray) ;;
     binary <- call ev_threshold (cv2_threshold env gray) ;;
     s <- call (ev_image_to_string cfg_psm6_oem3)
            (image_to_string env cfg_psm6_oem3 binary) ;;
     let text := PyStr.strip s in
     data <- call ev_image_to_data (image_to_data_conf env binary) ;;
     confs <- lift (positive_confs data) ;;
     ret (text, mean_or_zero confs))
    (fun _ => ret ("", 0)).

(** lines 147-153 and 187-192: the enhanced pass, when [trigger] holds, and
    what it changes of [text] and [avg_conf] *)
Definition refine (trigger : bool) (s : Scan) : M (string * Q) :=
  if trigger then
    r <- enhanced_handwritten_ocr (sc_img s) ;;
    let (extra_text, extra_conf) := r in
    if PyStr.truthy extra_text
    then ret (sc_text s ++ NL ++ extra_text, (sc_conf s + extra_conf) / 2)
    else ret (sc_text s, sc_conf s)
  else ret (sc_text s, sc_conf s).

(** the loop of lines 121-134 over the page numbers still to do *)
Fixpoint pdf_pages (doc : Document) (page_nums : list nat)
    (all_text : list string) (confidences : list Q)
    : M (list string * list Q) :=
  match page_nums with
  | [] => ret (all_text, confidences)
  | page_num :: rest =>
      np_img <- call (ev_fitz_render page_num) (fitz_render env doc page_num) ;;
      processed <- preprocess_image np_img ;;
      data <- call ev_image_to_data (image_to_data_conf env processed) ;;
      page_text <- call (ev_image_to_string cfg_default)
                     (image_to_string env cfg_default processed) ;;
      page_conf <- lift (positive_confs data) ;;
      pdf_pages doc rest (all_text ++ [page_text])%list
        (match page_conf with
         | [] => confidences
         | _ => (confidences ++ [np_mean_Z page_conf])%list
         end)
  end.

(** [page.extract_text() or ""] *)
Definition text_or_empty (t : option string) : string :=
  match t with
  | Some s => s
  | None => ""
  end.

(** lines 106-145: either the early return of line 115 or the state at
    line 147 *)
Definition pdf_front (pdf_bytes : bytes) : M ((string * Q * string) + Scan) :=
  pages <- call ev_PdfReader (PdfReader_pages env pdf_bytes) ;;
  let text := String.concat "" (map text_or_empty pages) in
  if (50 <? String.length (PyStr.strip text))%nat then
    ret (inl (PyStr.strip text, 95, "text_pdf"))
  else
    doc <- call ev_fitz_open (fitz_open env pdf_bytes) ;;
    r <- pdf_pages doc (seq 0 (fitz_len env doc)) [] [] ;;
    let (all_text, confidences) := r in
    let text := PyStr.strip (PyStr.join_lines all_text) in
    let avg_conf := mean_or_zeroQ confidences in
    np_img <- call (ev_fitz_render 0) (fitz_render env doc 0) ;;
    texture_detected <- detect_handwriting_texture np_img ;;
    contour_score <- analyze_contour_irregularity np_img ;;
    ret (inr (mkScan text avg_conf texture_detected contour_score np_img)).

(** line 148 *)
Definition pdf_trigger (s : Scan) : bool :=
  sc_texture s || Qlt_bool (sc_conf s) 60 || Qgt_bool (sc_contour s) (3 # 10).

(** lines 156-163 *)
Definition classify_pdf (avg_conf : Q) (texture_detected : bool)
    (contour_score : Q) : string :=
  if Qge_bool avg_conf 80 then "image_pdf"
  else if Qle_bool 60 avg_conf && Qlt_bool avg_conf 80 then
    if negb (signal texture_detected contour_score)
    then "image_pdf" else "mixed_image_pdf"
  else if Qle_bool 40 avg_conf && Qlt_bool avg_conf 60 then
    if signal texture_detected contour_score
    then "low_quality_image_pdf" else "low_quality_printed_pdf"
  else "handwritten_pdf".

(** the [try] block of [extract_text_from_pdf], lines 106-165 *)
Definition pdf_body (pdf_bytes : bytes) : M (string * Q * string) :=
  r <- pdf_front pdf_bytes ;;
  match r with
  | inl early => ret early
  | inr s =>
      tc <- refine (pdf_trigger s) s ;;
      let (text, avg_conf) := tc in
      ret (text, avg_conf,
           classify_pdf avg_conf (sc_texture s) (sc_contour s))
  end.

(** [extract_text_from_pdf(pdf_bytes)], lines 101-169 *)
Definition extract_text_from_pdf (pdf_bytes : bytes) : M (string * Q * string) :=
  try_except (pdf_body pdf_bytes)
    (fun _ => ret ("(Error extracting text)", 0, "error_pdf")).

(** lines 177-185 *)
Definition image_front (image : ndarray) : M Scan :=
  processed <- preprocess_image image ;;
  data <- call ev_image_to_data (image_to_data_conf env processed) ;;
  s <- call (ev_image_to_string cfg_default)
         (image_to_string env cfg_default processed) ;;
  let text := PyStr.strip s in
  confidences <- lift (positive_confs data) ;;
  let avg_conf := mean_or_zero confidences in
  texture_detected <- detect_handwriting_texture image ;;
  contour_score <- analyze_contour_irregularity image ;;
  ret (mkScan text avg_conf texture_detected contour_score image).

(** line 188 *)
Definition image_trigger (s : Scan) : bool :=
  Qlt_bool (sc_conf s) 60 || sc_texture s.

(** lines 195-202 *)
Definition classify_image (avg_conf : Q) (texture_detected : bool)
    (contour_score : Q) : string :=
  if Qge_bool avg_conf 80 then "printed_image"
  else if Qle_bool 60 avg_conf && Qlt_bool avg_conf 80 then
    if negb (signal texture_detected contour_score)
    then "printed_image" else "image_pdf"
  else if Qle_bool 40 avg_conf && Qlt_bool avg_conf 60 then
    if signal texture_detected contour_score
    then "low_quality_image_" else "low_quality_image"
  else "handwritten_image".

(** [extract_text_from_image(image)], lines 175-207 *)
Definition extract_text_from_image (image : ndarray) : M (string * Q * string) :=
  s <- image_front image ;;
  tc <- refine (image_trigger s) s ;;
  let (text, avg_conf) := tc in
  ret (text, avg_conf, classify_image avg_conf (sc_texture s) (sc_contour s)).

(** [text if text else "(No text found)"] *)
Definition text_or_placeholder (text : string) : string :=
  if PyStr.truthy text then text else "(No text found)".

(** line 226 *)
Definition pdf_is_handwritten (pdf_type : string) : bool :=
  str_in pdf_type ["handwritten_pdf"; "image_pdf"].

(** line 241 *)
Definition image_is_handwritten (img_type : string) : bool :=
  str_in img_type ["handwritten_image"; "mixed_handwritten_image"].

(** the [try] block of [process_from_url], lines 216-243 *)
Definition process_body (u : string) : M Response :=
  file_content <- download_file_from_url u ;;
  if is_pdf_url u then
    r <- extract_text_from_pdf file_content ;;
    let '(text, conf, pdf_type) := r in
    ret (Result (mkResponse u pdf_type (round2 conf)
                       (pdf_is_handwritten pdf_type)
                       (text_or_placeholder text)))
  else
    image <- call ev_imdecode (cv2_imdecode env file_content) ;;
    match image with
    | None => raise "Could not decode image from URL content"
    | Some image =>
        r <- extract_text_from_image image ;;
        let '(text, conf, img_type) := r in
        ret (Result (mkResponse u img_type (round2 conf)
                           (image_is_handwritten img_type)
                           (text_or_placeholder text)))
    end.

(** [process_from_url(url)], lines 213-247 *)
Definition process_from_url (u : string) (t : Trace) : Response * Trace :=
  match process_body u t with
  | (inl e, t') => (ErrorResponse e, t')
  | (inr r, t') => (r, t')
  end.

End Pipeline.

Arguments preprocess_image {Document}.
Arguments detect_handwriting_texture {Document}.
Arguments download_file_from_url {Document}.
Arguments analyze_contour_irregularity {Document}.
Arguments enhanced_handwritten_ocr {Document}.
Arguments refine {Document}.
Arguments pdf_pages {Document}.
Arguments pdf_front {Document}.
Arguments pdf_body {Document}.
Arguments extract_text_from_pdf {Document}.
Arguments image_front {Document}.
Arguments extract_text_from_image {Document}.
Arguments process_body {Document}.
Arguments process_from_url {Document}.

(** ** Observations on results and traces *)

Definition is_enter (f : Func) (ev : Event) : bool :=
  match ev, f with
  | ev_enter f_preprocess_image, f_preprocess_image => true
  | ev_enter f_detect_handwriting_texture, f_detect_handwriting_texture => true
  | ev_enter f_analyze_contour_irregularity, f_analyze_contour_irregularity => true
  | ev_enter f_enhanced_handwritten_ocr, f_enhanced_handwritten_ocr => true
  | _, _ => false
  end.

(** how many times function [f] was entered along trace [t] *)
Definition runs (f : Func) (t : Trace) : nat :=
  List.length (filter (is_enter f) t).

Definition b2n (b : bool) : nat := if b then 1%nat else 0%nat.

(** a computation that never enters [f] *)
Definition silent {A} (f : Func) (m : M A) : Prop :=
  forall t, runs f (snd (m t)) = runs f t.

(** what lines 147-153 / 187-192 leave in [text] and [avg_conf] *)
Definition refined (s : Scan) (extra_text : string) (extra_conf : Q)
    : string * Q :=
  if PyStr.truthy extra_text
  then (sc_text s ++ NL ++ extra_text, (sc_conf s + extra_conf) / 2)
  else (sc_text s, sc_conf s).

(** ** The properties as the specification words them *)

(** a token confidence is usable when it is a strictly positive integer,
    given as an int or as a non-empty string of decimal digits *)
Definition usable_conf (conf : PyVal) : list Z :=
  match conf with
  | PyInt z => if (0 <? z)%Z then [z] else []
  | PyStr s =>
      if PyStr.isdigit s
      then (if (0 <? PyStr.digits_value 0%Z s)%Z
            then [PyStr.digits_value 0%Z s] else [])
      else []
  end.

(** token [conf] is the integer [n], written as an int or in digits *)
Definition digit_token (conf : PyVal) (n : Z) : Prop :=
  match conf with
  | PyInt z => n = z
  | PyStr s => PyStr.isdigit s = true /\ n = PyStr.digits_value 0%Z s
  end.

(** "positive, numeric per-token confidences": a token is numeric when
    [int()] reads it *)
Definition numeric_positive_conf (conf : PyVal) : list Z :=
  match py_int conf with
  | inr n => if (0 <? n)%Z then [n] else []
  | inl _ => []
  end.

Definition numeric_positive_confs (data : list PyVal) : list Z :=
  flat_map numeric_positive_conf data.

(** the tokens of the recognition engine: confidences from -1 to 100,
    given as ints or as strings; the string of a token has at most 4300
    characters, the longest numeral CPython converts *)
Definition engine_token (conf : PyVal) : Prop :=
  match conf with
  | PyInt z => (-1 <= z <= 100)%Z
  | PyStr s =>
      (String.length s <= 4300)%nat /\
      (PyStr.isdigit s = true -> (PyStr.digits_value 0%Z s <= 100)%Z)
  end.

(** "count of edge pixels" and "total pixel count" of an edge map *)
Definition edge_pixels (edges : ndarray) : nat :=
  List.length (filter (fun v => (0 <? v)%Z) (List.concat edges)).

Definition pixels (edges : ndarray) : nat := List.length (List.concat edges).

Definition usable_confs (data : list PyVal) : list Z :=
  flat_map usable_conf data.

(** arithmetic mean, as a quotient *)
Definition mean_Z (l : list Z) : Q :=
  sumQ (map inject_Z l) / inject_Z (Z.of_nat (List.length l)).

Definition mean_Q (l : list Q) : Q :=
  sumQ l / inject_Z (Z.of_nat (List.length l)).


(** what the code does instead: pages without a usable token are left out *)
Definition nonempty (l : list Z) : bool :=
  match l with [] => false | _ => true end.


(** "|1 - 4 pi area / perimeter^2|" of one contour, with [np.pi] for pi *)
Definition spec_irregularity (c : Contour) : Q :=
  Qabs (1 - (4 * np_pi * contourArea c) / (arcLength c * arcLength c)).

(** the same with the code's denominator *)
Definition code_irregularity (c : Contour) : Q :=
  Qabs (1 - (4 * np_pi * contourArea c)
            / (arcLength c * arcLength c + (1 # 1000000))).

Definition qualifying (c : Contour) : bool := Qgt_bool (contourArea c) 10.

(** "mean over all contours with area > 10 of ... (0 if no qualifying
    contours)" *)
Definition spec_contour_irregularity (contours : list Contour) : Q :=
  mean_or_zeroQ (map spec_irregularity (filter qualifying contours)).

(** the standard pass of one PDF page succeeded and read [data] *)
Definition page_pass {Document} (env : Env Document) (doc : Document)
    (page_num : nat) (data : list PyVal) : Prop :=
  exists np_img gray blurred processed page_text,
    fitz_render env doc page_num = inr np_img /\
    cv2_cvtColor env np_img = inr gray /\
    cv2_GaussianBlur env gray = inr blurred /\
    cv2_adaptiveThreshold env blurred = inr processed /\
    image_to_data_conf env processed = inr data /\
    image_to_string env cfg_default processed = inr page_text.

(** ** Test doubles for the external libraries *)

(** Arrays are tagged by their only cell: page [n] of a document renders to
    [[n]], the standard preprocessing returns its input, and the
    binarisation of the enhanced pass returns [[-1]]. *)
Definition stub_env
    (download : Exc bytes)
    (layer : Exc (list (option string)))
    (npages : nat)
    (page_confs : nat -> list PyVal)
    (std_text : string)
    (enh_text : Exc string)
    (enh_confs : list PyVal)
    (edges : ndarray)
    (lap_var : Q)
    (contours : list Contour) : Env unit :=
  {| requests_get := fun _ => download;
     PdfReader_pages := fun _ => layer;
     fitz_open := fun _ => inr tt;
     fitz_len := fun _ => npages;
     fitz_render := fun _ n => inr [[Z.of_nat n]];
     cv2_imdecode := fun _ => inr (Some [[0%Z]]);
     cv2_cvtColor := fun a => inr a;
     cv2_GaussianBlur := fun a => inr a;
     cv2_adaptiveThreshold := fun a => inr a;
     cv2_Canny := fun _ => inr edges;
     cv2_Laplacian_var := fun _ => inr lap_var;
     cv2_findContours := fun _ => inr contours;
     cv2_convertScaleAbs := fun a => inr a;
     cv2_bilateralFilter := fun a => inr a;
     cv2_threshold := fun _ => inr [[(-1)%Z]];
     image_to_data_conf := fun a =>
       match a with
       | [[Zneg _]] => inr enh_confs
       | [[n]] => inr (page_confs (Z.to_nat n))
       | _ => inr []
       end;
     image_to_string := fun c _ =>
       match c with
       | cfg_default => inr std_text
       | cfg_psm6_oem3 => enh_text
       end |}.

Definition blank_edges : ndarray := [[0; 0]; [0; 0]]%Z.

(** a two-page scan: page 0 reads one token of confidence 80, page 1 reads
    no usable token *)
Definition two_page_env : Env unit :=
  stub_env (inr []) (inr [Some ""; None]) 2
    (fun n => match n with O => [PyInt 80] | _ => [PyStr "-1"] end)
    "page" (inr "") [] blank_edges 0 [].

(** an image whose standard pass reads confidence 50 and whose enhanced
    pass returns confidence 90 but no text *)
Definition silent_enhanced_env : Env unit :=
  stub_env (inr []) (inr []) 1 (fun _ => [PyInt 50]) "std"
    (inr "  ") [PyInt 90] blank_edges 0 [].

(** a PDF the text-layer reader rejects *)
Definition broken_pdf_env : Env unit :=
  stub_env (inr []) (inl "EOF marker not found") 1 (fun _ => [PyInt 90])
    "page" (inr "") [] blank_edges 0 [].

(** one environment for a clean scanned PDF (confidence 90) and for an
    image read at confidence 70 with one very irregular contour *)
Definition cross_family_env : Env unit :=
  stub_env (inr []) (inr []) 1 (fun _ => [PyInt 70]) "text"
    (inr "") [] blank_edges 0 [mkContour 100 100].

Definition clean_pdf_env : Env unit :=
  stub_env (inr []) (inr []) 1 (fun _ => [PyInt 90]) "text"
    (inr "") [] blank_edges 0 [].

(** an enhanced pass that reads text but only a zero-confidence token *)
Definition zero_conf_env : Env unit :=
  stub_env (inr []) (inr []) 1 (fun _ => [PyInt 0]) "abc"
    (inr "abc") [PyInt 0] blank_edges 0 [].

(** a text PDF: one page with a text layer of 60 characters *)
Definition sixty : string :=
  "0123456789012345678901234567890123456789012345678901234567  ".
Definition text_pdf_env : Env unit :=
  stub_env (inr []) (inr [Some sixty; None; Some "tail"]) 1
    (fun _ => []) "" (inr "") [] blank_edges 0 [].

(** edges of a 5 x 5 image with two edge pixels: density exactly 0.08 *)
Definition boundary_edges : ndarray :=
  [[255; 0; 0; 0; 0]; [0; 0; 0; 0; 0]; [0; 0; 255; 0; 0];
   [0; 0; 0; 0; 0]; [0; 0; 0; 0; 0]]%Z.
Definition boundary_env : Env unit :=
  stub_env (inr []) (inr []) 1 (fun _ => []) "" (inr "") []
    boundary_edges 250 [].

(** a 10 x 10 square outline and a speck below the area threshold *)
Definition square_contour : Contour := mkContour 40 100.
Definition speck_contour : Contour := mkContour 8 4.
Definition square_env : Env unit :=
  stub_env (inr []) (inr []) 1 (fun _ => []) "" (inr "") []
    blank_edges 0 [speck_contour; square_contour].

(** ** api/routes/ocr_router.py *)

(** [APIResponse(success=..., message=..., data=...)] *)
Record APIResponse (A : Type) : Type := mkAPIResponse {
  success : bool;
  message : string;
  data : A
}.

Arguments mkAPIResponse {A}.
Arguments success {A}.
Arguments message {A}.
Arguments data {A}.

(** what an endpoint does: it returns a response or raises
    [HTTPException(status_code, detail)] *)
Inductive Answer (A : Type) : Type :=
| Returned (r : APIResponse A)
| HTTPException (status_code : Z) (detail : string).

Arguments Returned {A}.
Arguments HTTPException {A}.

(** the dict [response] of [verify_handwritten], lines 93-104 and 121-132 *)
Record Verification : Type := mkVerification {
  v_url : string;
  v_file_type : string;
  v_is_handwritten : bool;
  v_confidence : Q;
  v_method : string;
  v_summary : string
}.

(** [OCRMessages.PROCESS_SUCCESS_WITH_DATA.format(text_length=n)] *)
Definition PROCESS_SUCCESS_WITH_DATA (n : nat) : string :=
  "Document processed successfully: "
  ++ NilZero.string_of_uint (Nat.to_uint n) ++ " characters extracted".

(** [len(extracted_text) if extracted_text else 0] *)
Definition text_length (extracted_text : string) : nat :=
  if PyStr.truthy extracted_text then String.length extracted_text else 0%nat.

Section Router.

Variable Document : Type.
Variable env : Env Document.

(** [StatusCode.UNPROCESSABLE_ENTITY] of api/constants/status_codes.py,
    which is not among the sources *)
Variable UNPROCESSABLE_ENTITY : Z.

(** the [try] block of [verify_handwritten], lines 83-138 *)
Definition verify_body (u : string) : M Verification :=
  file_content <- download_file_from_url env u ;;
  if is_pdf_url u then
    r <- extract_text_from_pdf env file_content ;;
    let '(text, conf, pdf_type) := r in
    let is_hw := str_in pdf_type ["handwritten_pdf"] || Qlt_bool conf 40 in
    ret (mkVerification u pdf_type is_hw (round2 conf)
           (if String.eqb pdf_type "text_pdf" then "PyPDF"
            else "fitz + Tesseract OCR")
           (if is_hw then "Detected handwritten PDF (low OCR confidence)"
            else "Detected printed/text PDF"))
  else
    image <- call ev_imdecode (cv2_imdecode env file_content) ;;
    match image with
    | None => raise "Could not decode image from URL content"
    | Some image =>
        r <- extract_text_from_image env image ;;
        let '(text, conf, img_type) := r in
        let is_hw := String.eqb img_type "handwritten_image"
                     || Qlt_bool conf 40 in
        ret (mkVerification u img_type is_hw (round2 conf)
               "Tesseract OCR (image-based)"
               (if is_hw then "Detected handwritten content (low confidence)"
                else "Detected printed text image"))
    end.

(** [verify_handwritten(url)], lines 71-142 *)
Definition verify_handwritten (u : string) (t : Trace)
    : Answer Verification * Trace :=
  match verify_body u t with
  | (inl e, t') => (HTTPException 500 e, t')
  | (inr response, t') =>
      (Returned (mkAPIResponse true
                   "Handwritten verification completed successfully."
                   response), t')
  end.

(** [extract_data(url)], lines 151-188.  [process_from_url] returns a dict
    on every path, so the handler of lines 183-188 has nothing to catch. *)
Definition extract_data (u : string) (t : Trace)
    : Answer ExtractionResponse * Trace :=
  match process_from_url env u t with
  | (ErrorResponse e, t') =>
      (HTTPException UNPROCESSABLE_ENTITY ("Data extraction failed: " ++ e), t')
  | (Result result, t') =>
      (Returned (mkAPIResponse true
                   (PROCESS_SUCCESS_WITH_DATA
                      (text_length (extracted_text result)))
                   result), t')
  end.

End Router.

Arguments verify_body {Document}.
Arguments verify_handwritten {Document}.
Arguments extract_data {Document}.

(** ** core/image_processor.py, the PIL-based helpers *)

(** a PIL image: its mode and its pixels *)
Record PIL : Type := mkPIL { pil_mode : string; pil_pixels : ndarray }.

Definition ebind {A B} (x : Exc A) (f : A -> Exc B) : Exc B :=
  match x with
  | inl e => inl e
  | inr a => f a
  end.

Notation "x <~ m ;; k" := (ebind m (fun x => k))
  (at level 61, m at next level, right associativity).





(** what [process_pdf_pages] does to the file system and to the document *)
Inductive FsEvent : Type :=
| fs_tmp_write            (* NamedTemporaryFile(...), tmp_file.write *)
| fs_fitz_open            (* fitz.open(tmp_file_path) *)
| fs_render (page_num : nat)
| fs_doc_close            (* doc.close() *)
| fs_unlink.              (* os.unlink(tmp_file_path) *)

Record PdfEnv (Document : Type) : Type := mkPdfEnv {
  (* the [with] block of lines 114-116; the path of the file written *)
  tmp_write : bytes -> Exc string;
  (* fitz.open(path) *)
  fitz_open_path : string -> Exc Document;
  (* len(doc) *)
  doc_len : Document -> nat;
  (* load_page(n), get_pixmap(Matrix(2.0, 2.0)), PNG, Image.open *)
  render_pil : Document -> nat -> Exc PIL
}.

Arguments tmp_write {Document}.
Arguments fitz_open_path {Document}.
Arguments doc_len {Document}.
Arguments render_pil {Document}.

(** an entry of [pages_data] *)
Record PageData : Type := mkPageData { page_number : nat; pil_image : PIL }.

(** the loop of lines 121-135 *)
Fixpoint render_pages {Document} (penv : PdfEnv Document) (doc : Document)
    (page_nums : list nat) (pages_data : list PageData) (t : list FsEvent)
    : Exc (list PageData) * list FsEvent :=
  match page_nums with
  | [] => (inr pages_data, t)
  | page_num :: rest =>
      match render_pil penv doc page_num with
      | inl e => (inl e, (t ++ [fs_render page_num])%list)
      | inr img =>
          render_pages penv doc rest
            (pages_data ++ [mkPageData (page_num + 1) img])%list
            (t ++ [fs_render page_num])%list
      end
  end.

(** [process_pdf_pages(pdf_content)], lines 108-151.  In the [finally]
    block both calls are wrapped in a bare [except: pass]; when
    [fitz.open] has raised, [doc] is unbound and [doc.close()] is not
    reached.  The outer handler raises the exception again. *)
Definition process_pdf_pages {Document} (penv : PdfEnv Document)
    (pdf_content : bytes) (t : list FsEvent)
    : Exc (list PageData) * list FsEvent :=
  match tmp_write penv pdf_content with
  | inl e => (inl e, (t ++ [fs_tmp_write])%list)
  | inr tmp_file_path =>
      let t1 := (t ++ [fs_tmp_write; fs_fitz_open])%list in
      match fitz_open_path penv tmp_file_path with
      | inl e => (inl e, (t1 ++ [fs_unlink])%list)
      | inr doc =>
          let (r, t2) := render_pages penv doc (seq 0 (doc_len penv doc)) [] t1 in
          (r, (t2 ++ [fs_doc_close; fs_unlink])%list)
      end
  end.

(** ** More observations *)

(** the six library calls of the enhanced pass, lines 76-87 *)
Definition enhanced_chain {Document} (env : Env Document) (image : ndarray)
    : Exc (string * list PyVal) :=
  gray <~ cv2_cvtColor env image ;;
  gray <~ cv2_convertScaleAbs env gray ;;
  gray <~ cv2_bilateralFilter env gray ;;
  binary <~ cv2_threshold env gray ;;
  s <~ image_to_string env cfg_psm6_oem3 binary ;;
  data <~ image_to_data_conf env binary ;;
  inr (s, data).


(** how many pages were rendered along a trace *)
Definition is_render (ev : Event) : bool :=
  match ev with ev_fitz_render _ => true | _ => false end.

Definition renders (t : Trace) : nat := List.length (filter is_render t).

(** every row of the array has [shape1] cells *)
Definition rectangular (a : ndarray) : Prop :=
  Forall (fun row => Z.of_nat (List.length row) = shape1 a) a.

(** the labels the two families can carry *)
Definition pdf_labels : list string :=
  ["text_pdf"; "error_pdf"; "image_pdf"; "mixed_image_pdf";
   "low_quality_image_pdf"; "low_quality_printed_pdf"; "handwritten_pdf"].

Definition image_labels : list string :=
  ["printed_image"; "image_pdf"; "low_quality_image_"; "low_quality_image";
   "handwritten_image"].

(** the recognition engine reports confidences of at most 100 *)
Definition engine_bounded {Document} (env : Env Document) : Prop :=
  forall img data,
    image_to_data_conf env img = inr data ->
    Forall (fun n => (n <= 100)%Z) (usable_confs data).

(** the three ways [extract_text_from_pdf] returns *)
Inductive PdfOutcome {Document} (env : Env Document) (b : bytes) (t : Trace)
    : string * Q * string -> Trace -> Prop :=
| pdf_text_layer text t1 :
    pdf_front env b t = (inr (inl (text, 95, "text_pdf")), t1) ->
    (50 < String.length text)%nat ->
    PdfOutcome env b t (text, 95, "text_pdf") t1
| pdf_failed e t1 :
    pdf_front env b t = (inl e, t1) ->
    PdfOutcome env b t ("(Error extracting text)", 0, "error_pdf") t1
| pdf_scanned s t1 text c t2 :
    pdf_front env b t = (inr (inr s), t1) ->
    refine env (pdf_trigger s) s t1 = (inr (text, c), t2) ->
    PdfOutcome env b t
      (text, c, classify_pdf c (sc_texture s) (sc_contour s)) t2.

(** an enhanced pass whose recognition call raises, after a standard pass
    at confidence 50 *)
Definition crashing_enhanced_env : Env unit :=
  stub_env (inr []) (inr []) 1 (fun _ => [PyInt 50]) "std"
    (inl "TesseractError") [PyInt 90] blank_edges 0 [].

(** a scan of three pages of which the second cannot be read *)
Definition bad_page_env : Env unit :=
  {| requests_get := fun _ => inr [];
     PdfReader_pages := fun _ => inr [];
     fitz_open := fun _ => inr tt;
     fitz_len := fun _ => 3%nat;
     fitz_render := fun _ n => inr [[Z.of_nat n]];
     cv2_imdecode := fun _ => inr None;
     cv2_cvtColor := fun a => inr a;
     cv2_GaussianBlur := fun a => inr a;
     cv2_adaptiveThreshold := fun a => inr a;
     cv2_Canny := fun _ => inr blank_edges;
     cv2_Laplacian_var := fun _ => inr 0;
     cv2_findContours := fun _ => inr [];
     cv2_convertScaleAbs := fun a => inr a;
     cv2_bilateralFilter := fun a => inr a;
     cv2_threshold := fun a => inr a;
     image_to_data_conf := fun a =>
       match a with
       | [[1%Z]] => inl "TesseractError"
       | _ => inr [PyInt 90]
       end;
     image_to_string := fun _ _ => inr "page" |}.


(** a document of three pages, page [n] rendering to the one-cell image
    [[n]]; with [bad] set, that page cannot be rendered *)
Definition three_page_penv (bad : option nat) : PdfEnv unit :=
  {| tmp_write := fun _ => inr "/tmp/tmpab12.pdf";
     fitz_open_path := fun _ => inr tt;
     doc_len := fun _ => 3%nat;
     render_pil := fun _ n =>
       match bad with
       | Some b => if Nat.eqb n b then inl "cannot render"
                   else inr (mkPIL "RGB" [[Z.of_nat n]])
       | None => inr (mkPIL "RGB" [[Z.of_nat n]])
       end |}.

(** a confidence on the scale of the recognition engine *)
Definition in_range (q : Q) : Prop := 0 <= q /\ q <= 100.

(** the four tallies of a trace the next lemmas follow *)
Definition tally (t : Trace) : nat * nat * nat * nat :=
  (runs f_preprocess_image t, runs f_detect_handwriting_texture t,
   runs f_analyze_contour_irregularity t, renders t).

Definition tally_plus (a b : nat * nat * nat * nat) : nat * nat * nat * nat :=
  let '(a1, a2, a3, a4) := a in
  let '(b1, b2, b3, b4) := b in
  ((a1 + b1)%nat, (a2 + b2)%nat, (a3 + b3)%nat, (a4 + b4)%nat).

(** entry [pd] of [pages_data] is page [n], numbered from one *)
Definition renders_page {Document} (penv : PdfEnv Document) (doc : Document)
    (n : nat) (pd : PageData) : Prop :=
  page_number pd = (n + 1)%nat /\ render_pil penv doc n = inr (pil_image pd).

(** a ratio *)
Definition unit_range (q : Q) : Prop := 0 <= q /\ q <= 1.

(** the isoperimetric inequality of a contour, with [np.pi] for pi *)
Definition isoperimetric (c : Contour) : Prop :=
  4 * np_pi * contourArea c <= arcLength c * arcLength c.

(** an enhanced pass that reads the tokens 80 and "+5" *)
Definition signed_token_env : Env unit :=
  stub_env (inr []) (inr []) 1 (fun _ => [PyInt 50]) "abc"
    (inr "abc") [PyInt 80; PyStr "+5"] blank_edges 0 [].

(** edges of a 5 x 5 image with three edge pixels: density 0.12 *)
Definition textured_edges : ndarray :=
  [[255; 0; 0; 0; 0]; [0; 0; 0; 0; 0]; [0; 0; 255; 0; 0];
   [0; 0; 0; 0; 0]; [0; 0; 0; 0; 255]]%Z.
Definition textured_env : Env unit :=
  stub_env (inr []) (inr []) 1 (fun _ => []) "" (inr "") []
    textured_edges 250 [].

(** density exactly 0.08 and a Laplacian variance just above 250 *)
Definition rough_env : Env unit :=
  stub_env (inr []) (inr []) 1 (fun _ => []) "" (inr "") []
    boundary_edges 251 [].

(** * Proofs *)

(** ** Comparisons *)

Lemma Qgt_bool_iff (a b : Q) : Qgt_bool a b = true <-> b < a.
Proof.
  unfold Qgt_bool. rewrite negb_true_iff.
  split; intro H.
  - apply Qnot_le_lt. intro Hle. apply Qle_bool_iff in Hle. congruence.
  - destruct (Qle_bool a b) eqn:E; [|reflexivity].
    apply Qle_bool_iff in E. exfalso. apply (Qlt_not_le _ _ H E).
Qed.

Lemma Qlt_bool_iff (a b : Q) : Qlt_bool a b = true <-> a < b.
Proof. unfold Qlt_bool. apply (Qgt_bool_iff b a). Qed.

Lemma Qge_bool_iff (a b : Q) : Qge_bool a b = true <-> b <= a.
Proof. unfold Qge_bool. apply Qle_bool_iff. Qed.

Lemma Qgt_bool_false_iff (a b : Q) : Qgt_bool a b = false <-> a <= b.
Proof.
  unfold Qgt_bool. rewrite negb_false_iff. apply Qle_bool_iff.
Qed.

Lemma Qlt_bool_false_iff (a b : Q) : Qlt_bool a b = false <-> b <= a.
Proof. unfold Qlt_bool. apply (Qgt_bool_false_iff b a). Qed.

Lemma Qge_bool_false_iff (a b : Q) : Qge_bool a b = false <-> a < b.
Proof.
  unfold Qge_bool. split; intro H.
  - apply Qnot_le_lt. intro Hle. apply Qle_bool_iff in Hle. congruence.
  - destruct (Qle_bool b a) eqn:E; [|reflexivity].
    apply Qle_bool_iff in E. exfalso. apply (Qlt_not_le _ _ H E).
Qed.

Lemma signal_iff (t : bool) (k : Q) :
  signal t k = true <-> (t = true \/ (3 # 10) < k).
Proof.
  unfold signal. rewrite orb_true_iff, Qgt_bool_iff. tauto.
Qed.

Lemma signal_false_iff (t : bool) (k : Q) :
  signal t k = false <-> ~ (t = true \/ (3 # 10) < k).
Proof.
  rewrite <- signal_iff. destruct (signal t k); split; intro H.
  - discriminate.
  - exfalso. apply H. reflexivity.
  - discriminate.
  - reflexivity.
Qed.

(** turn the boolean tests of a goal into facts about [Q] *)
Ltac band c :=
  destruct (Qge_bool c 80) eqn:?E80;
  destruct (Qle_bool 60 c) eqn:?E60;
  destruct (Qlt_bool c 80) eqn:?L80;
  destruct (Qle_bool 40 c) eqn:?E40;
  destruct (Qlt_bool c 60) eqn:?L60;
  repeat match goal with
    | H : Qge_bool _ _ = true |- _ => apply Qge_bool_iff in H
    | H : Qge_bool _ _ = false |- _ => apply Qge_bool_false_iff in H
    | H : Qlt_bool _ _ = true |- _ => apply Qlt_bool_iff in H
    | H : Qlt_bool _ _ = false |- _ => apply Qlt_bool_false_iff in H
    | H : Qle_bool _ _ = true |- _ => apply Qle_bool_iff in H
    | H : Qle_bool _ _ = false |- _ =>
        apply not_true_iff_false in H; rewrite Qle_bool_iff in H;
        apply Qnot_le_lt in H
    end.

Lemma classify_pdf_table (c : Q) (t : bool) (k : Q) :
  (80 <= c -> classify_pdf c t k = "image_pdf") /\
  (60 <= c -> c < 80 -> signal t k = false ->
     classify_pdf c t k = "image_pdf") /\
  (60 <= c -> c < 80 -> signal t k = true ->
     classify_pdf c t k = "mixed_image_pdf") /\
  (40 <= c -> c < 60 -> signal t k = true ->
     classify_pdf c t k = "low_quality_image_pdf") /\
  (40 <= c -> c < 60 -> signal t k = false ->
     classify_pdf c t k = "low_quality_printed_pdf") /\
  (c < 40 -> classify_pdf c t k = "handwritten_pdf").
Proof.
  unfold classify_pdf.
  repeat split; intros; band c; simpl;
    try (exfalso; lra);
    repeat match goal with
      | H : signal _ _ = _ |- _ => rewrite H
      end; reflexivity.
Qed.

Lemma classify_image_table (c : Q) (t : bool) (k : Q) :
  (80 <= c -> classify_image c t k = "printed_image") /\
  (60 <= c -> c < 80 -> signal t k = false ->
     classify_image c t k = "printed_image") /\
  (60 <= c -> c < 80 -> signal t k = true ->
     classify_image c t k = "image_pdf") /\
  (40 <= c -> c < 60 -> signal t k = true ->
     classify_image c t k = "low_quality_image_") /\
  (40 <= c -> c < 60 -> signal t k = false ->
     classify_image c t k = "low_quality_image") /\
  (c < 40 -> classify_image c t k = "handwritten_image").
Proof.
  unfold classify_image.
  repeat split; intros; band c; simpl;
    try (exfalso; lra);
    repeat match goal with
      | H : signal _ _ = _ |- _ => rewrite H
      end; reflexivity.
Qed.

(** ** Traces *)

Lemma runs_app (f : Func) (a b : Trace) :
  runs f (a ++ b)%list = (runs f a + runs f b)%nat.
Proof. unfold runs. rewrite filter_app, length_app. reflexivity. Qed.

Section Silent.

Variable f : Func.

Lemma silent_ret {A} (a : A) : silent f (ret a).
Proof. intro t. reflexivity. Qed.

Lemma silent_raise {A} (e : string) : silent f (@raise A e).
Proof. intro t. reflexivity. Qed.

Lemma silent_lift {A} (x : Exc A) : silent f (lift x).
Proof. intro t. reflexivity. Qed.

Lemma silent_call {A} (ev : Event) (x : Exc A) :
  is_enter f ev = false -> silent f (call ev x).
Proof.
  intros H t. unfold call. simpl. rewrite runs_app. unfold runs at 2.
  simpl. rewrite H. simpl. lia.
Qed.

Lemma silent_enter (g : Func) :
  is_enter f (ev_enter g) = false -> silent f (enter g).
Proof.
  intros H t. unfold enter. cbn [snd]. rewrite runs_app. unfold runs at 2.
  cbn [filter]. rewrite H. simpl. lia.
Qed.

Lemma silent_bind {A B} (m : M A) (k : A -> M B) :
  silent f m -> (forall a, silent f (k a)) -> silent f (bind m k).
Proof.
  intros Hm Hk t. unfold bind. specialize (Hm t).
  destruct (m t) as [[e | a] t']; simpl in *.
  - exact Hm.
  - rewrite Hk. exact Hm.
Qed.

Lemma silent_try {A} (m : M A) (h : string -> M A) :
  silent f m -> (forall e, silent f (h e)) -> silent f (try_except m h).
Proof.
  intros Hm Hh t. unfold try_except. specialize (Hm t).
  destruct (m t) as [[e | a] t']; simpl in *.
  - rewrite Hh. exact Hm.
  - exact Hm.
Qed.

End Silent.

Ltac silence :=
  repeat lazymatch goal with
    | |- silent _ (bind _ _) => apply silent_bind; [| intro]
    | |- silent _ (ret _) => apply silent_ret
    | |- silent _ (raise _) => apply silent_raise
    | |- silent _ (lift _) => apply silent_lift
    | |- silent _ (call _ _) => apply silent_call; reflexivity
    | |- silent _ (enter _) => apply silent_enter; reflexivity
    end.

Section PipelineFacts.

Variable Document : Type.
Variable env : Env Document.

Lemma preprocess_silent (img : ndarray) :
  silent f_enhanced_handwritten_ocr (preprocess_image env img).
Proof. unfold preprocess_image. silence. Qed.

Lemma texture_silent (img : ndarray) :
  silent f_enhanced_handwritten_ocr (detect_handwriting_texture env img).
Proof. unfold detect_handwriting_texture. silence. Qed.

Lemma contour_silent (img : ndarray) :
  silent f_enhanced_handwritten_ocr (analyze_contour_irregularity env img).
Proof.
  unfold analyze_contour_irregularity.
  apply silent_bind; [silence | intros _].
  apply silent_bind; [silence | intro gray].
  apply silent_bind; [silence | intro edges].
  apply silent_bind; [silence | intro contours].
  destruct contours; apply silent_ret.
Qed.

Lemma pdf_pages_silent (doc : Document) (page_nums : list nat) :
  forall all_text confidences,
    silent f_enhanced_handwritten_ocr
      (pdf_pages env doc page_nums all_text confidences).
Proof.
  induction page_nums as [| n rest IH]; intros all_text confidences; simpl.
  - apply silent_ret.
  - silence.
    + apply preprocess_silent.
    + apply IH.
Qed.

Lemma pdf_front_silent (b : bytes) :
  silent f_enhanced_handwritten_ocr (pdf_front env b).
Proof.
  unfold pdf_front. apply silent_bind; [silence | intro pages].
  destruct (50 <? _)%nat; [apply silent_ret |].
  apply silent_bind; [silence | intro doc].
  apply silent_bind; [apply pdf_pages_silent | intros [all_text confidences]].
  apply silent_bind; [silence | intro np_img].
  apply silent_bind; [apply texture_silent | intro tx].
  apply silent_bind; [apply contour_silent | intro cs].
  apply silent_ret.
Qed.

Lemma image_front_silent (image : ndarray) :
  silent f_enhanced_handwritten_ocr (image_front env image).
Proof.
  unfold image_front.
  apply silent_bind; [apply preprocess_silent | intro processed].
  apply silent_bind; [silence | intro data].
  apply silent_bind; [silence | intro s].
  apply silent_bind; [silence | intro confs].
  apply silent_bind; [apply texture_silent | intro tx].
  apply silent_bind; [apply contour_silent | intro cs].
  apply silent_ret.
Qed.

(** the enhanced pass always returns, whatever the libraries do *)
Lemma enhanced_returns (image : ndarray) (t : Trace) :
  exists extra_text extra_conf t',
    enhanced_handwritten_ocr env image t = (inr (extra_text, extra_conf), t').
Proof.
  unfold enhanced_handwritten_ocr, bind, try_except, call, enter, lift, ret.
  destruct (cv2_cvtColor env image) as [e | gray]; [eauto |].
  destruct (cv2_convertScaleAbs env gray) as [e | g2]; [eauto |].
  destruct (cv2_bilateralFilter env g2) as [e | g3]; [eauto |].
  destruct (cv2_threshold env g3) as [e | binary]; [eauto |].
  destruct (image_to_string env cfg_psm6_oem3 binary) as [e | s]; [eauto |].
  destruct (image_to_data_conf env binary) as [e | data]; [eauto |].
  destruct (positive_confs data) as [e | confs]; eauto.
Qed.

Lemma enhanced_runs_once (image : ndarray) (t : Trace) :
  runs f_enhanced_handwritten_ocr (snd (enhanced_handwritten_ocr env image t))
  = (runs f_enhanced_handwritten_ocr t + 1)%nat.
Proof.
  unfold enhanced_handwritten_ocr.
  unfold bind at 1. unfold enter.
  match goal with
  | |- context [try_except ?m ?h] =>
      assert (S : silent f_enhanced_handwritten_ocr (try_except m h))
  end.
  { apply silent_try; [| intro; apply silent_ret]. silence. }
  rewrite S, runs_app. reflexivity.
Qed.

Lemma refine_triggered (s : Scan) (t : Trace) :
  exists extra_text extra_conf t',
    enhanced_handwritten_ocr env (sc_img s) t
      = (inr (extra_text, extra_conf), t') /\
    refine env true s t = (inr (refined s extra_text extra_conf), t').
Proof.
  destruct (enhanced_returns (sc_img s) t) as (et & ec & t' & E).
  exists et, ec, t'. split; [exact E |].
  unfold refine, bind, refined. rewrite E.
  destruct (PyStr.truthy et); reflexivity.
Qed.

Lemma refine_idle (s : Scan) (t : Trace) :
  refine env false s t = (inr (sc_text s, sc_conf s), t).
Proof. reflexivity. Qed.

Lemma refine_runs (trigger : bool) (s : Scan) (t : Trace) :
  runs f_enhanced_handwritten_ocr (snd (refine env trigger s t))
  = (runs f_enhanced_handwritten_ocr t + b2n trigger)%nat.
Proof.
  destruct trigger.
  - destruct (refine_triggered s t) as (et & ec & t' & E & R).
    rewrite R. simpl.
    pose proof (enhanced_runs_once (sc_img s) t) as H.
    rewrite E in H. exact H.
  - rewrite refine_idle. simpl. lia.
Qed.

(** the part of [extract_text_from_pdf] after line 147 *)
Lemma pdf_after_front (b : bytes) (t t1 : Trace) (s : Scan) :
  pdf_front env b t = (inr (inr s), t1) ->
  exists text c t2,
    refine env (pdf_trigger s) s t1 = (inr (text, c), t2) /\
    extract_text_from_pdf env b t
    = (inr (text, c, classify_pdf c (sc_texture s) (sc_contour s)), t2).
Proof.
  intro F.
  assert (R : exists text c t2,
             refine env (pdf_trigger s) s t1 = (inr (text, c), t2)).
  { destruct (pdf_trigger s).
    - destruct (refine_triggered s t1) as (et & ec & t' & _ & R).
      destruct (refined s et ec) as [text c]. eauto.
    - rewrite refine_idle. eauto. }
  destruct R as (text & c & t2 & R).
  exists text, c, t2. split; [exact R |].
  unfold extract_text_from_pdf, pdf_body, try_except, bind.
  rewrite F, R. reflexivity.
Qed.

Lemma image_after_front (image : ndarray) (t t1 : Trace) (s : Scan) :
  image_front env image t = (inr s, t1) ->
  exists text c t2,
    refine env (image_trigger s) s t1 = (inr (text, c), t2) /\
    extract_text_from_image env image t
    = (inr (text, c, classify_image c (sc_texture s) (sc_contour s)), t2).
Proof.
  intro F.
  assert (R : exists text c t2,
             refine env (image_trigger s) s t1 = (inr (text, c), t2)).
  { destruct (image_trigger s).
    - destruct (refine_triggered s t1) as (et & ec & t' & _ & R).
      destruct (refined s et ec) as [text c]. eauto.
    - rewrite refine_idle. eauto. }
  destruct R as (text & c & t2 & R).
  exists text, c, t2. split; [exact R |].
  unfold extract_text_from_image, bind. rewrite F, R. reflexivity.
Qed.

End PipelineFacts.

(** ** Token confidences *)

Lemma all_digits_string_of_uint (d : Decimal.uint) :
  PyStr.all_digits (NilEmpty.string_of_uint d) = true.
Proof. induction d; simpl; auto. Qed.

Lemma isdigit_string_of_uint (d : Decimal.uint) :
  PyStr.isdigit (NilZero.string_of_uint d) = true.
Proof.
  unfold PyStr.isdigit, NilZero.string_of_uint.
  destruct d; try reflexivity;
    simpl; apply all_digits_string_of_uint.
Qed.

(** [str(n)] of a positive integer is a digit string *)
Lemma isdigit_str_positive (z : Z) :
  (0 < z)%Z -> PyStr.isdigit (py_str (PyInt z)) = true.
Proof.
  intro H. destruct z as [| p | p]; try lia.
  unfold py_str. simpl Z.to_int. apply isdigit_string_of_uint.
Qed.

Lemma is_digit_value (a : ascii) :
  PyStr.is_digit a = true -> (0 <= Z.of_nat (nat_of_ascii a) - 48)%Z.
Proof.
  unfold PyStr.is_digit. intro H. apply andb_true_iff in H.
  destruct H as [H _]. apply Nat.leb_le in H. lia.
Qed.

Lemma digits_value_nonneg (s : string) :
  forall acc, (0 <= acc)%Z -> PyStr.all_digits s = true ->
              (0 <= PyStr.digits_value acc s)%Z.
Proof.
  induction s as [| a r IH]; intros acc Hacc Hs;
    cbn [PyStr.digits_value PyStr.all_digits] in *.
  - exact Hacc.
  - apply andb_true_iff in Hs. destruct Hs as [Ha Hr].
    apply IH; [| exact Hr]. apply is_digit_value in Ha. lia.
Qed.

Lemma isdigit_all_digits (s : string) :
  PyStr.isdigit s = true -> PyStr.all_digits s = true.
Proof.
  unfold PyStr.isdigit. intro H. apply andb_true_iff in H. tauto.
Qed.

Lemma is_digit_not_space (a : ascii) :
  PyStr.is_digit a = true -> PyStr.is_space a = false.
Proof.
  unfold PyStr.is_digit, PyStr.is_space. intro H.
  apply andb_true_iff in H. destruct H as [H1 H2].
  apply Nat.leb_le in H1. apply Nat.leb_le in H2.
  apply orb_false_iff. split; apply andb_false_iff.
  - right. apply Nat.leb_gt. lia.
  - right. apply Nat.leb_gt. lia.
Qed.

Lemma lstrip_digits (s : string) :
  PyStr.all_digits s = true -> PyStr.lstrip s = s.
Proof.
  destruct s as [| a r]; [reflexivity |].
  cbn [PyStr.all_digits PyStr.lstrip]. intro H.
  apply andb_true_iff in H. destruct H as [H _].
  rewrite (is_digit_not_space a H). reflexivity.
Qed.

Lemma rstrip_digits (s : string) :
  PyStr.all_digits s = true -> PyStr.rstrip s = s.
Proof.
  induction s as [| a r IH]; [reflexivity |].
  cbn [PyStr.all_digits PyStr.rstrip]. intro H.
  apply andb_true_iff in H. destruct H as [Ha Hr].
  rewrite (IH Hr). destruct r; [| reflexivity].
  rewrite (is_digit_not_space a Ha). reflexivity.
Qed.

Lemma is_digit_not_sign (a : ascii) :
  PyStr.is_digit a = true -> Ascii.eqb a "-" = false /\ Ascii.eqb a "+" = false.
Proof.
  intro H. split.
  - destruct (Ascii.eqb a "-") eqn:E; [| reflexivity].
    apply Ascii.eqb_eq in E. subst a. discriminate H.
  - destruct (Ascii.eqb a "+") eqn:E; [| reflexivity].
    apply Ascii.eqb_eq in E. subst a. discriminate H.
Qed.

Lemma int_body_digits (s : string) :
  PyStr.all_digits s = true ->
  forall prev_digit acc,
    PyStr.int_body prev_digit acc s
    = match s with
      | EmptyString => if prev_digit then Some acc else None
      | _ => Some (PyStr.digits_value acc s)
      end.
Proof.
  induction s as [| a r IH]; intros H prev_digit acc; [reflexivity |].
  cbn [PyStr.all_digits] in H. apply andb_true_iff in H.
  destruct H as [Ha Hr].
  cbn [PyStr.int_body PyStr.digits_value]. rewrite Ha, (IH Hr).
  destruct r; reflexivity.
Qed.

(** [int()] reads a digit string as its value *)
Lemma py_int_digits (s : string) :
  PyStr.isdigit s = true ->
  py_int (PyStr s) = inr (PyStr.digits_value 0 s).
Proof.
  intro H. pose proof (isdigit_all_digits s H) as D.
  unfold py_int, PyStr.strip.
  rewrite (lstrip_digits s D), (rstrip_digits s D).
  destruct s as [| a r]; [discriminate H |].
  cbn [PyStr.all_digits] in D. apply andb_true_iff in D.
  destruct D as [Ha Hr].
  destruct (is_digit_not_sign a Ha) as [M P]. rewrite M, P.
  rewrite int_body_digits
    by (cbn [PyStr.all_digits]; rewrite Ha, Hr; reflexivity).
  reflexivity.
Qed.

(** the filter of the list comprehension, one token at a time *)
Lemma positive_conf_step (conf : PyVal) :
  (PyStr.isdigit (py_str conf) = true /\
   exists n, py_int conf = inr n /\
             usable_conf conf = if (0 <? n)%Z then [n] else [])
  \/ (PyStr.isdigit (py_str conf) = false /\ usable_conf conf = []).
Proof.
  destruct conf as [z | s].
  - destruct (PyStr.isdigit (py_str (PyInt z))) eqn:E.
    + left. split; [reflexivity |]. exists z. split; reflexivity.
    + right. split; [reflexivity |]. cbn [usable_conf].
      destruct (0 <? z)%Z eqn:P; [| reflexivity].
      apply Z.ltb_lt in P. rewrite (isdigit_str_positive z P) in E.
      discriminate.
  - cbn [py_str usable_conf]. destruct (PyStr.isdigit s) eqn:E.
    + left. split; [reflexivity |]. exists (PyStr.digits_value 0 s).
      split; [apply py_int_digits; exact E | reflexivity].
    + right. split; reflexivity.
Qed.

(** the list comprehension never raises and keeps exactly the usable
    confidences, in order *)
Lemma positive_confs_usable (data : list PyVal) :
  positive_confs data = inr (usable_confs data).
Proof.
  induction data as [| conf rest IH]; [reflexivity |].
  unfold usable_confs. simpl flat_map. fold (usable_confs rest).
  simpl positive_confs.
  destruct (positive_conf_step conf) as [(D & n & I & U) | (D & U)];
    rewrite D, U.
  - rewrite I. destruct (0 <? n)%Z; rewrite IH; reflexivity.
  - exact IH.
Qed.

Lemma usable_confs_positive (data : list PyVal) :
  Forall (fun n => (0 < n)%Z) (usable_confs data).
Proof.
  unfold usable_confs. induction data as [| conf rest IH]; simpl.
  - constructor.
  - apply Forall_app. split; [| exact IH].
    destruct conf as [z | s]; cbn [usable_conf].
    + destruct (0 <? z)%Z eqn:P; constructor.
      * apply Z.ltb_lt. exact P.
      * constructor.
    + destruct (PyStr.isdigit s); [| constructor].
      destruct (0 <? PyStr.digits_value 0 s)%Z eqn:P; constructor.
      * apply Z.ltb_lt. exact P.
      * constructor.
Qed.

(** ** Means *)

Lemma np_mean_correct (l : list Q) : np_mean l == mean_Q l.
Proof. unfold np_mean, mean_Q. apply Qred_correct. Qed.

Lemma np_mean_Z_correct (l : list Z) : np_mean_Z l == mean_Z l.
Proof.
  unfold np_mean_Z, mean_Z. rewrite np_mean_correct. unfold mean_Q.
  rewrite length_map. reflexivity.
Qed.

Lemma sumQ_nonneg (l : list Q) : Forall (fun q => 0 <= q) l -> 0 <= sumQ l.
Proof.
  induction 1 as [| q l Hq _ IH]; simpl.
  - apply Qle_refl.
  - lra.
Qed.

Lemma mean_Q_nonneg (l : list Q) : Forall (fun q => 0 <= q) l -> 0 <= mean_Q l.
Proof.
  intro H. unfold mean_Q. apply sumQ_nonneg in H.
  destruct l as [| q l'].
  - simpl. unfold Qdiv, Qinv. simpl. lra.
  - apply Qle_shift_div_l.
    + unfold Qlt. simpl. lia.
    + lra.
Qed.

Lemma mean_or_zeroQ_nonneg (l : list Q) :
  Forall (fun q => 0 <= q) l -> 0 <= mean_or_zeroQ l.
Proof.
  intro H. destruct l as [| q l']; simpl.
  - apply Qle_refl.
  - rewrite np_mean_correct. apply mean_Q_nonneg. exact H.
Qed.

Lemma irregularities_filter (contours : list Contour) :
  flat_map irregularity_of contours
  = map code_irregularity (filter qualifying contours).
Proof.
  induction contours as [| c rest IH]; [reflexivity |].
  cbn [flat_map filter]. rewrite IH.
  unfold irregularity_of, qualifying, code_irregularity.
  destruct (Qgt_bool (contourArea c) 10); reflexivity.
Qed.

Lemma denominator_positive (p : Q) : 0 < p * p + (1 # 1000000).
Proof.
  assert (0 <= p * p).
  { destruct p as [n d]. unfold Qle, Qmult. simpl. nia. }
  lra.
Qed.

(** * The claims *)

(** C1.  The label of a scanned document is read off two decision tables on
    the final confidence [c] and the structural signals.  PDF family:
    [c >= 80] gives image_pdf; [60 <= c < 80] gives image_pdf when neither
    texture nor contour irregularity above 0.3 holds and mixed_image_pdf
    otherwise; [40 <= c < 60] gives low_quality_image_pdf when a signal
    holds and low_quality_printed_pdf otherwise; [c < 40] gives
    handwritten_pdf.  Image family: printed_image; printed_image or
    image_pdf; low_quality_image_ (with the underscore) or
    low_quality_image; handwritten_image.  Both extraction functions label
    a scanned document with the table of their family, applied to the
    confidence they return. *)
Theorem label_decision_tables :
  forall (c : Q) (texture_detected : bool) (contour_score : Q),
    let sig := texture_detected = true \/ (3 # 10) < contour_score in
    let pdf := classify_pdf c texture_detected contour_score in
    let img := classify_image c texture_detected contour_score in
    ((80 <= c -> pdf = "image_pdf") /\
     (60 <= c -> c < 80 -> ~ sig -> pdf = "image_pdf") /\
     (60 <= c -> c < 80 -> sig -> pdf = "mixed_image_pdf") /\
     (40 <= c -> c < 60 -> sig -> pdf = "low_quality_image_pdf") /\
     (40 <= c -> c < 60 -> ~ sig -> pdf = "low_quality_printed_pdf") /\
     (c < 40 -> pdf = "handwritten_pdf")) /\
    ((80 <= c -> img = "printed_image") /\
     (60 <= c -> c < 80 -> ~ sig -> img = "printed_image") /\
     (60 <= c -> c < 80 -> sig -> img = "image_pdf") /\
     (40 <= c -> c < 60 -> sig -> img = "low_quality_image_") /\
     (40 <= c -> c < 60 -> ~ sig -> img = "low_quality_image") /\
     (c < 40 -> img = "handwritten_image")) /\
    (forall Document (env : Env Document) pdf_bytes t t1 s,
        pdf_front env pdf_bytes t = (inr (inr s), t1) ->
        exists text conf,
          fst (extract_text_from_pdf env pdf_bytes t)
          = inr (text, conf,
                 classify_pdf conf (sc_texture s) (sc_contour s))) /\
    (forall Document (env : Env Document) image t t1 s,
        image_front env image t = (inr s, t1) ->
        exists text conf,
          fst (extract_text_from_image env image t)
          = inr (text, conf,
                 classify_image conf (sc_texture s) (sc_contour s))).
Proof.
  intros c t k sig pdf img.
  destruct (classify_pdf_table c t k) as (P1 & P2 & P3 & P4 & P5 & P6).
  destruct (classify_image_table c t k) as (I1 & I2 & I3 & I4 & I5 & I6).
  subst sig pdf img.
  repeat split; intros;
    try solve [ apply P1; assumption | apply P6; assumption
              | apply I1; assumption | apply I6; assumption
              | apply P2; try assumption; apply signal_false_iff; assumption
              | apply P3; try assumption; apply signal_iff; assumption
              | apply P4; try assumption; apply signal_iff; assumption
              | apply P5; try assumption; apply signal_false_iff; assumption
              | apply I2; try assumption; apply signal_false_iff; assumption
              | apply I3; try assumption; apply signal_iff; assumption
              | apply I4; try assumption; apply signal_iff; assumption
              | apply I5; try assumption; apply signal_false_iff; assumption ].
  - destruct (pdf_after_front Document env pdf_bytes t0 t1 s H)
      as (text & conf & t2 & _ & E).
    exists text, conf. rewrite E. reflexivity.
  - destruct (image_after_front Document env image t0 t1 s H)
      as (text & conf & t2 & _ & E).
    exists text, conf. rewrite E. reflexivity.
Qed.

Lemma label_decision_tables_witness :
  classify_pdf 70 true 0 = "mixed_image_pdf" /\
  classify_pdf 45 false 0 = "low_quality_printed_pdf" /\
  classify_image 45 false (1 # 2) = "low_quality_image_" /\
  classify_image 39 true 0 = "handwritten_image" /\
  exists text conf,
    fst (extract_text_from_pdf two_page_env [] [])
    = inr (text, conf, classify_pdf conf false 0).
Proof.
  destruct (label_decision_tables 70 true 0)
    as ((_ & _ & A & _) & _ & H & _).
  destruct (label_decision_tables 45 false 0)
    as ((_ & _ & _ & _ & B & _) & _).
  destruct (label_decision_tables 45 false (1 # 2))
    as (_ & (_ & _ & _ & C & _) & _).
  destruct (label_decision_tables 39 true 0)
    as (_ & (_ & _ & _ & _ & _ & D) & _).
  split; [apply A; [lra | lra | left; reflexivity] |].
  split; [apply B; [lra | lra | intros [X | X]; [discriminate X | lra]] |].
  split; [apply C; [lra | lra | right; lra] |].
  split; [apply D; lra |].
  exact (H unit two_page_env [] [] _ _ eq_refl).
Defined.

(** ** Counting edge pixels *)

Lemma count_positive_flat (a : ndarray) :
  count_positive a = Z.of_nat (edge_pixels a).
Proof.
  unfold edge_pixels. induction a as [| row rows IH]; [reflexivity |].
  cbn [count_positive fold_right List.concat]. fold (count_positive rows).
  rewrite IH, filter_app, length_app, Nat2Z.inj_add. reflexivity.
Qed.

Lemma pixels_of_rows (w : Z) (a : ndarray) :
  Forall (fun row => Z.of_nat (List.length row) = w) a ->
  Z.of_nat (pixels a) = (Z.of_nat (List.length a) * w)%Z.
Proof.
  unfold pixels. induction 1 as [| row rows Hrow _ IH]; [reflexivity |].
  cbn [List.concat List.length].
  rewrite length_app, Nat2Z.inj_add, IH, Hrow, Nat2Z.inj_succ. lia.
Qed.

Lemma shape_is_pixels (a : ndarray) :
  rectangular a -> (shape0 a * shape1 a)%Z = Z.of_nat (pixels a).
Proof.
  intro R. rewrite (pixels_of_rows (shape1 a) a R). reflexivity.
Qed.

(** a ratio of two counts exceeds 0.08 when 100 times the one exceeds 8
    times the other *)
Lemma ratio_above_threshold (c p : Z) :
  (0 < p)%Z ->
  ((8 # 100) < inject_Z c / inject_Z p <-> (8 * p < 100 * c)%Z).
Proof.
  intro P.
  assert (Q0 : 0 < inject_Z p).
  { change 0 with (inject_Z 0). rewrite <- Zlt_Qlt. exact P. }
  split; intro H.
  - assert (X : (8 # 100) * inject_Z p < inject_Z c).
    { apply (Qmult_lt_compat_r _ _ (inject_Z p) Q0) in H.
      unfold Qdiv in H. rewrite <- Qmult_assoc in H.
      rewrite (Qmult_comm (/ inject_Z p)) in H.
      rewrite Qmult_inv_r in H by lra. lra. }
    rewrite Zlt_Qlt, !inject_Z_mult.
    change (inject_Z 8) with 8. change (inject_Z 100) with 100. lra.
  - apply Qlt_shift_div_l; [exact Q0 |].
    rewrite Zlt_Qlt, !inject_Z_mult in H.
    change (inject_Z 8) with 8 in H. change (inject_Z 100) with 100 in H.
    lra.
Qed.

(** C9.  For every raster image, textureDetected is true if and only if
    edgeDensity > 0.08 or laplacianVariance > 250, where edgeDensity is the
    number of edge pixels of the edge map divided by its number of pixels:
    the flag is true exactly when 100 times the number of edge pixels
    exceeds 8 times the number of pixels or the variance exceeds 250.
    Both comparisons are strict, so the flag is false when the density is
    exactly 0.08 and the variance exactly 250. *)
Theorem texture_detected_iff :
  forall Document (env : Env Document) (image : ndarray) (t : Trace)
         (gray edges : ndarray) (lap_var : Q),
    cv2_cvtColor env image = inr gray ->
    cv2_Canny env gray = inr edges ->
    cv2_Laplacian_var env gray = inr lap_var ->
    exists texture_detected,
      fst (detect_handwriting_texture env image t) = inr texture_detected /\
      (texture_detected = true <->
         (8 # 100) < edge_density edges \/ 250 < lap_var) /\
      (rectangular edges ->
         edge_density edges
         == inject_Z (Z.of_nat (edge_pixels edges))
            / inject_Z (Z.of_nat (pixels edges))) /\
      (rectangular edges -> (0 < pixels edges)%nat ->
         (texture_detected = true <->
            (8 * Z.of_nat (pixels edges)
             < 100 * Z.of_nat (edge_pixels edges))%Z
            \/ 250 < lap_var)) /\
      (edge_density edges == 8 # 100 -> lap_var == 250 ->
         texture_detected = false).
Proof.
  intros Document env image t gray edges lap_var Hg He Hl.
  exists (Qgt_bool (edge_density edges) edge_threshold
          || Qgt_bool lap_var texture_threshold).
  assert (I : Qgt_bool (edge_density edges) edge_threshold
              || Qgt_bool lap_var texture_threshold = true <->
              (8 # 100) < edge_density edges \/ 250 < lap_var).
  { rewrite orb_true_iff, !Qgt_bool_iff. reflexivity. }
  assert (D : rectangular edges ->
              edge_density edges
              == inject_Z (Z.of_nat (edge_pixels edges))
                 / inject_Z (Z.of_nat (pixels edges))).
  { intro R. unfold edge_density.
    rewrite count_positive_flat, (shape_is_pixels edges R). reflexivity. }
  split; [| split; [exact I | split; [exact D | split]]].
  - unfold detect_handwriting_texture, bind, call, enter, ret.
    rewrite Hg, He, Hl. reflexivity.
  - intros R P. rewrite I, (D R).
    rewrite ratio_above_threshold by lia. reflexivity.
  - intros E V.
    apply orb_false_iff. split; apply Qgt_bool_false_iff.
    + rewrite E. unfold edge_threshold. apply Qle_refl.
    + rewrite V. unfold texture_threshold. apply Qle_refl.
Qed.

Lemma texture_detected_iff_witness :
  (edge_pixels boundary_edges = 2%nat /\ pixels boundary_edges = 25%nat /\
   edge_density boundary_edges == 8 # 100 /\
   fst (detect_handwriting_texture boundary_env [[0%Z]] []) = inr false) /\
  (edge_pixels textured_edges = 3%nat /\ pixels textured_edges = 25%nat /\
   fst (detect_handwriting_texture textured_env [[0%Z]] []) = inr true) /\
  fst (detect_handwriting_texture rough_env [[0%Z]] []) = inr true.
Proof.
  split; [| split].
  - destruct (texture_detected_iff unit boundary_env [[0%Z]] [] [[0%Z]]
                boundary_edges 250 eq_refl eq_refl eq_refl)
      as (b & E & _ & _ & _ & B).
    assert (X : edge_density boundary_edges == 8 # 100)
      by (vm_compute; reflexivity).
    split; [reflexivity |]. split; [reflexivity |]. split; [exact X |].
    rewrite E. f_equal. apply B; [exact X | reflexivity].
  - destruct (texture_detected_iff unit textured_env [[0%Z]] [] [[0%Z]]
                textured_edges 250 eq_refl eq_refl eq_refl)
      as (b & E & _ & _ & N & _).
    split; [reflexivity |]. split; [reflexivity |].
    rewrite E. f_equal. apply N.
    + repeat constructor.
    + cbn. lia.
    + left. cbn. lia.
  - destruct (texture_detected_iff unit rough_env [[0%Z]] [] [[0%Z]]
                boundary_edges 251 eq_refl eq_refl eq_refl)
      as (b & E & I & _).
    rewrite E. f_equal. apply I. right. reflexivity.
Defined.

(** C10, as the code has it.  For every raster image, contourIrregularity
    is the arithmetic mean, over exactly the contours whose area exceeds
    10, of |1 - 4 pi area / (perimeter^2 + 0.000001)|, and 0.0 when there
    is no contour or none of area above 10.  The denominator is never zero
    and the result is never negative. *)
Theorem contour_irregularity_mean :
  forall Document (env : Env Document) (image : ndarray) (t : Trace)
         (gray edges : ndarray) (contours : list Contour),
    cv2_cvtColor env image = inr gray ->
    cv2_Canny env gray = inr edges ->
    cv2_findContours env edges = inr contours ->
    exists score,
      fst (analyze_contour_irregularity env image t) = inr score /\
      (filter qualifying contours = [] -> score = 0) /\
      (filter qualifying contours <> [] ->
         score == mean_Q (map code_irregularity (filter qualifying contours))) /\
      (forall c, qualifying c = true <-> 10 < contourArea c) /\
      (forall c, 0 < arcLength c * arcLength c + (1 # 1000000)) /\
      0 <= score.
Proof.
  intros Document env image t gray edges contours Hg He Hc.
  exists (mean_or_zeroQ (map code_irregularity (filter qualifying contours))).
  split; [| split; [| split; [| split; [| split]]]].
  - unfold analyze_contour_irregularity, bind, call, enter, ret.
    rewrite Hg, He, Hc. rewrite <- irregularities_filter.
    destruct contours; reflexivity.
  - intro E. rewrite E. reflexivity.
  - intro N. destruct (filter qualifying contours) as [| c l];
      [congruence |].
    cbn [map mean_or_zeroQ]. apply np_mean_correct.
  - intro c. apply Qgt_bool_iff.
  - intro c. apply denominator_positive.
  - apply mean_or_zeroQ_nonneg. apply Forall_forall.
    intros q Hq. apply in_map_iff in Hq. destruct Hq as (c & <- & _).
    apply Qabs_nonneg.
Qed.

Lemma contour_irregularity_mean_witness :
  exists score,
    fst (analyze_contour_irregularity square_env [[0%Z]] []) = inr score /\
    (filter qualifying [speck_contour; square_contour] = [] -> score = 0) /\
    (filter qualifying [speck_contour; square_contour] <> [] ->
       score == mean_Q (map code_irregularity
                          (filter qualifying [speck_contour; square_contour]))) /\
    (forall c, qualifying c = true <-> 10 < contourArea c) /\
    (forall c, 0 < arcLength c * arcLength c + (1 # 1000000)) /\
    0 <= score.
Proof.
  exact (contour_irregularity_mean unit square_env [[0%Z]] [] [[0%Z]]
           blank_edges [speck_contour; square_contour]
           eq_refl eq_refl eq_refl).
Defined.

(** C10 as stated fails: for a square outline of perimeter 40 and area 100
    the code does not return |1 - 4 pi 100 / 40^2|. *)
Lemma contour_irregularity_not_spec :
  fst (analyze_contour_irregularity square_env [[0%Z]] [])
    = inr (94382886149514235069 # 439804651385277906944) /\
  spec_contour_irregularity [speck_contour; square_contour]
    = (241620187839069 # 1125899906842624) /\
  ~ (94382886149514235069 # 439804651385277906944)
    == (241620187839069 # 1125899906842624).
Proof.
  split; [vm_compute; reflexivity |].
  split; [vm_compute; reflexivity |].
  intro H. vm_compute in H. discriminate H.
Qed.

(** C7, as the code has it.  For every recognition pass over tokens of
    the engine's range, the confidence is the arithmetic mean of exactly
    those token confidences that are a strictly positive integer, given as
    an int or as a non-empty string of decimal digits; every other token,
    a signed or padded numeral such as "+5" included, is left out, not
    counted as zero; reading the tokens never raises, and a pass without a
    usable token has confidence 0.0.  The text of the pass is the stripped
    text the engine returned, whatever the tokens are. *)
Theorem pass_confidence_mean :
  forall (data : list PyVal),
    Forall engine_token data ->
    positive_confs data = inr (usable_confs data) /\
    (forall n, In n (usable_confs data) <->
               exists conf, In conf data /\ digit_token conf n /\ (0 < n)%Z) /\
    (usable_confs data = [] -> mean_or_zero (usable_confs data) = 0) /\
    (usable_confs data <> [] ->
       mean_or_zero (usable_confs data) == mean_Z (usable_confs data)) /\
    (forall Document (env : Env Document) image t gray g2 g3 binary s,
        cv2_cvtColor env image = inr gray ->
        cv2_convertScaleAbs env gray = inr g2 ->
        cv2_bilateralFilter env g2 = inr g3 ->
        cv2_threshold env g3 = inr binary ->
        image_to_string env cfg_psm6_oem3 binary = inr s ->
        image_to_data_conf env binary = inr data ->
        fst (enhanced_handwritten_ocr env image t)
        = inr (PyStr.strip s, mean_or_zero (usable_confs data))) /\
    (forall Document (env : Env Document) image t t1 sc gray blurred
            processed s,
        cv2_cvtColor env image = inr gray ->
        cv2_GaussianBlur env gray = inr blurred ->
        cv2_adaptiveThreshold env blurred = inr processed ->
        image_to_data_conf env processed = inr data ->
        image_to_string env cfg_default processed = inr s ->
        image_front env image t = (inr sc, t1) ->
        sc_text sc = PyStr.strip s /\
        sc_conf sc = mean_or_zero (usable_confs data)).
Proof.
  intros data _.
  split; [apply positive_confs_usable |].
  split.
  { intro n. unfold usable_confs. rewrite in_flat_map.
    split.
    - intros (conf & Hin & Hn). exists conf. split; [exact Hin |].
      destruct conf as [z | s]; cbn [usable_conf digit_token] in *.
      + destruct (0 <? z)%Z eqn:P; [| destruct Hn].
        destruct Hn as [-> | []]. split; [reflexivity |].
        apply Z.ltb_lt. exact P.
      + destruct (PyStr.isdigit s); [| destruct Hn].
        destruct (0 <? PyStr.digits_value 0 s)%Z eqn:P; [| destruct Hn].
        destruct Hn as [<- | []]. split; [split; reflexivity |].
        apply Z.ltb_lt. exact P.
    - intros (conf & Hin & Hd & Hp). exists conf. split; [exact Hin |].
      apply Z.ltb_lt in Hp.
      destruct conf as [z | s]; cbn [usable_conf digit_token] in *.
      + subst z. rewrite Hp. left. reflexivity.
      + destruct Hd as [D ->]. rewrite D, Hp. left. reflexivity. }
  split; [intro E; rewrite E; reflexivity |].
  split.
  { intro N. destruct (usable_confs data) as [| n l]; [congruence |].
    cbn [mean_or_zero]. apply np_mean_Z_correct. }
  split.
  - intros Document env image t gray g2 g3 binary s H1 H2 H3 H4 H5 H6.
    unfold enhanced_handwritten_ocr, bind, try_except, call, enter, lift, ret.
    rewrite H1, H2, H3, H4, H5, H6, positive_confs_usable. reflexivity.
  - intros Document env image t t1 sc gray blurred processed s
           H1 H2 H3 H4 H5 F.
    unfold image_front, preprocess_image, bind, call, enter, lift in F.
    rewrite H1, H2, H3, H4, H5, positive_confs_usable in F.
    destruct (detect_handwriting_texture env image _) as [[e | tx] t2];
      [discriminate F |].
    destruct (analyze_contour_irregularity env image _) as [[e | k] t3];
      [discriminate F |].
    unfold ret in F. inversion F. split; reflexivity.
Qed.

Lemma pass_confidence_mean_witness :
  Forall engine_token [PyInt 80; PyStr "+5"] /\
  positive_confs [PyInt 80; PyStr "+5"] = inr [80%Z] /\
  fst (enhanced_handwritten_ocr signed_token_env [[0%Z]] [])
  = inr (PyStr.strip "abc",
         mean_or_zero (usable_confs [PyInt 80; PyStr "+5"])).
Proof.
  assert (R : Forall engine_token [PyInt 80; PyStr "+5"]).
  { repeat constructor; cbn; try lia. intro H. discriminate H. }
  split; [exact R |].
  destruct (pass_confidence_mean [PyInt 80; PyStr "+5"] R)
    as (C & _ & _ & _ & H & _).
  split; [exact C |].
  exact (H unit signed_token_env [[0%Z]] [] [[0%Z]] [[0%Z]] [[0%Z]]
           [[(-1)%Z]] "abc" eq_refl eq_refl eq_refl eq_refl eq_refl eq_refl).
Defined.

(** C7 as stated fails twice.  An enhanced pass whose only token has
    confidence 0 has no usable token and confidence 0.0, and still returns
    the text "abc".  And a pass that reads the tokens 80 and "+5", both
    numeric and strictly positive, has confidence 80, not their mean
    42.5: the token "+5" is no digit string and is left out. *)
Lemma zero_confidence_pass_keeps_text :
  (usable_confs [PyInt 0] = [] /\
   fst (enhanced_handwritten_ocr zero_conf_env [[0%Z]] []) = inr ("abc", 0) /\
   "abc" <> "") /\
  (py_int (PyStr "+5") = inr 5%Z /\
   numeric_positive_confs [PyInt 80; PyStr "+5"] = [80%Z; 5%Z] /\
   positive_confs [PyInt 80; PyStr "+5"] = inr [80%Z] /\
   fst (enhanced_handwritten_ocr signed_token_env [[0%Z]] [])
     = inr ("abc", 80) /\
   mean_Z [80%Z; 5%Z] == 85 # 2 /\
   ~ 80 == 85 # 2).
Proof.
  split.
  - split; [reflexivity |]. split; [vm_compute; reflexivity | discriminate].
  - split; [vm_compute; reflexivity |].
    split; [vm_compute; reflexivity |].
    split; [vm_compute; reflexivity |].
    split; [vm_compute; reflexivity |].
    split; [vm_compute; reflexivity |].
    intro H. vm_compute in H. discriminate H.
Qed.

(** ** The page loop *)

Lemma pdf_pages_confidences {Document} (env : Env Document) (doc : Document)
    (page_nums : list nat) :
  forall all_text confidences t all_text' confidences' t',
    pdf_pages env doc page_nums all_text confidences t
      = (inr (all_text', confidences'), t') ->
    exists datas,
      Forall2 (page_pass env doc) page_nums datas /\
      confidences'
      = (confidences
           ++ map np_mean_Z (filter nonempty (map usable_confs datas)))%list.
Proof.
  induction page_nums as [| n rest IH];
    intros all_text confidences t all_text' confidences' t' H.
  - cbn [pdf_pages] in H. unfold ret in H. inversion H. subst.
    exists []. split; [constructor |]. cbn. rewrite app_nil_r. reflexivity.
  - cbn [pdf_pages] in H.
    unfold preprocess_image, bind, call, enter, lift in H.
    destruct (fitz_render env doc n) as [e | np_img] eqn:E1;
      [discriminate H |].
    destruct (cv2_cvtColor env np_img) as [e | gray] eqn:E2;
      [discriminate H |].
    destruct (cv2_GaussianBlur env gray) as [e | blurred] eqn:E3;
      [discriminate H |].
    destruct (cv2_adaptiveThreshold env blurred) as [e | processed] eqn:E4;
      [discriminate H |].
    destruct (image_to_data_conf env processed) as [e | data] eqn:E5;
      [discriminate H |].
    destruct (image_to_string env cfg_default processed)
      as [e | page_text] eqn:E6; [discriminate H |].
    rewrite positive_confs_usable in H.
    apply IH in H. destruct H as (datas & F & C).
    exists (data :: datas). split.
    + constructor; [| exact F].
      exists np_img, gray, blurred, processed, page_text. tauto.
    + rewrite C. cbn [map filter].
      destruct (usable_confs data) as [| c l]; cbn [nonempty].
      * reflexivity.
      * cbn [map]. rewrite <- app_assoc. reflexivity.
Qed.




(** C3.  The enhanced pass runs exactly when the trigger of the family
    holds: for a PDF on the raster path, when textureDetected or
    meanConfidence < 60 or contourIrregularity > 0.3; for an image, when
    meanConfidence < 60 or textureDetected, so that contour irregularity
    alone never triggers it.  A PDF that leaves before the raster analysis
    is complete never runs it. *)
Theorem enhanced_pass_trigger :
  (forall Document (env : Env Document) pdf_bytes t t1 s,
      pdf_front env pdf_bytes t = (inr (inr s), t1) ->
      runs f_enhanced_handwritten_ocr
        (snd (extract_text_from_pdf env pdf_bytes t))
      = (runs f_enhanced_handwritten_ocr t + b2n (pdf_trigger s))%nat /\
      (pdf_trigger s = true <->
         sc_texture s = true \/ sc_conf s < 60 \/ (3 # 10) < sc_contour s)) /\
  (forall Document (env : Env Document) pdf_bytes t,
      (forall s, fst (pdf_front env pdf_bytes t) <> inr (inr s)) ->
      runs f_enhanced_handwritten_ocr
        (snd (extract_text_from_pdf env pdf_bytes t))
      = runs f_enhanced_handwritten_ocr t) /\
  (forall Document (env : Env Document) image t t1 s,
      image_front env image t = (inr s, t1) ->
      runs f_enhanced_handwritten_ocr
        (snd (extract_text_from_image env image t))
      = (runs f_enhanced_handwritten_ocr t + b2n (image_trigger s))%nat /\
      (image_trigger s = true <-> sc_conf s < 60 \/ sc_texture s = true) /\
      (60 <= sc_conf s -> sc_texture s = false ->
         runs f_enhanced_handwritten_ocr
           (snd (extract_text_from_image env image t))
         = runs f_enhanced_handwritten_ocr t)).
Proof.
  split; [| split].
  - intros Document env pdf_bytes t t1 s F. split.
    + destruct (pdf_after_front Document env pdf_bytes t t1 s F)
        as (text & c & t2 & R & E).
      rewrite E. cbn [snd].
      pose proof (refine_runs Document env (pdf_trigger s) s t1) as N.
      rewrite R in N. cbn [snd] in N. rewrite N.
      pose proof (pdf_front_silent Document env pdf_bytes t) as S.
      rewrite F in S. cbn [snd] in S. rewrite S. reflexivity.
    + unfold pdf_trigger.
      rewrite !orb_true_iff, Qlt_bool_iff, Qgt_bool_iff. tauto.
  - intros Document env pdf_bytes t N.
    pose proof (pdf_front_silent Document env pdf_bytes t) as S.
    unfold extract_text_from_pdf, pdf_body, try_except, bind.
    destruct (pdf_front env pdf_bytes t) as [[e | [early | s]] t1];
      cbn [fst snd] in *.
    + exact S.
    + exact S.
    + exfalso. apply (N s). reflexivity.
  - intros Document env image t t1 s F.
    assert (R : runs f_enhanced_handwritten_ocr
                  (snd (extract_text_from_image env image t))
                = (runs f_enhanced_handwritten_ocr t
                   + b2n (image_trigger s))%nat).
    { destruct (image_after_front Document env image t t1 s F)
        as (text & c & t2 & R & E).
      rewrite E. cbn [snd].
      pose proof (refine_runs Document env (image_trigger s) s t1) as N.
      rewrite R in N. cbn [snd] in N. rewrite N.
      pose proof (image_front_silent Document env image t) as S.
      rewrite F in S. cbn [snd] in S. rewrite S. reflexivity. }
    split; [exact R |]. split.
    + unfold image_trigger. rewrite orb_true_iff, Qlt_bool_iff. tauto.
    + intros Hc Ht. rewrite R. unfold image_trigger. rewrite Ht.
      apply Qlt_bool_false_iff in Hc. rewrite Hc. cbn. lia.
Qed.

Lemma enhanced_pass_trigger_witness :
  runs f_enhanced_handwritten_ocr
    (snd (extract_text_from_image cross_family_env [[0%Z]] []))
  = runs f_enhanced_handwritten_ocr [] /\
  runs f_enhanced_handwritten_ocr
    (snd (extract_text_from_pdf cross_family_env [] []))
  = (runs f_enhanced_handwritten_ocr [] + 1)%nat.
Proof.
  destruct enhanced_pass_trigger as (P & _ & I).
  split.
  - destruct (I unit cross_family_env [[0%Z]] [] _ _ eq_refl)
      as (_ & _ & H).
    apply H; [cbn; lra | reflexivity].
  - destruct (P unit cross_family_env [] [] _ _ eq_refl) as (H & _).
    exact H.
Defined.

(** C4, as the code has it.  Whenever the enhanced pass is triggered, for a
    PDF or an image, and it returns a non-empty text, the final confidence
    is the unweighted mean of the standard and the enhanced confidence and
    the final text is the standard text, a newline and the enhanced text.
    When it returns an empty text, confidence and text stay those of the
    standard pass. *)
Theorem enhanced_pass_merge :
  (forall Document (env : Env Document) pdf_bytes t t1 s,
      pdf_front env pdf_bytes t = (inr (inr s), t1) ->
      pdf_trigger s = true ->
      exists extra_text extra_conf,
        fst (enhanced_handwritten_ocr env (sc_img s) t1)
          = inr (extra_text, extra_conf) /\
        (extra_text <> "" ->
           fst (extract_text_from_pdf env pdf_bytes t)
           = inr (sc_text s ++ NL ++ extra_text,
                  (sc_conf s + extra_conf) / 2,
                  classify_pdf ((sc_conf s + extra_conf) / 2)
                    (sc_texture s) (sc_contour s))) /\
        (extra_text = "" ->
           fst (extract_text_from_pdf env pdf_bytes t)
           = inr (sc_text s, sc_conf s,
                  classify_pdf (sc_conf s) (sc_texture s) (sc_contour s)))) /\
  (forall Document (env : Env Document) image t t1 s,
      image_front env image t = (inr s, t1) ->
      image_trigger s = true ->
      exists extra_text extra_conf,
        fst (enhanced_handwritten_ocr env (sc_img s) t1)
          = inr (extra_text, extra_conf) /\
        (extra_text <> "" ->
           fst (extract_text_from_image env image t)
           = inr (sc_text s ++ NL ++ extra_text,
                  (sc_conf s + extra_conf) / 2,
                  classify_image ((sc_conf s + extra_conf) / 2)
                    (sc_texture s) (sc_contour s))) /\
        (extra_text = "" ->
           fst (extract_text_from_image env image t)
           = inr (sc_text s, sc_conf s,
                  classify_image (sc_conf s) (sc_texture s) (sc_contour s)))).
Proof.
  split.
  - intros Document env pdf_bytes t t1 s F T.
    destruct (refine_triggered Document env s t1) as (et & ec & t2 & E & R).
    exists et, ec. rewrite E. split; [reflexivity |].
    unfold extract_text_from_pdf, pdf_body, try_except, bind.
    rewrite F, T, R. unfold refined.
    split; intro H.
    + destruct et; [congruence | reflexivity].
    + subst et. reflexivity.
  - intros Document env image t t1 s F T.
    destruct (refine_triggered Document env s t1) as (et & ec & t2 & E & R).
    exists et, ec. rewrite E. split; [reflexivity |].
    unfold extract_text_from_image, bind.
    rewrite F, T, R. unfold refined.
    split; intro H.
    + destruct et; [congruence | reflexivity].
    + subst et. reflexivity.
Qed.

Lemma enhanced_pass_merge_witness :
  exists extra_text extra_conf,
    fst (enhanced_handwritten_ocr zero_conf_env [[0%Z]]
           (snd (image_front zero_conf_env [[0%Z]] [])))
      = inr (extra_text, extra_conf) /\
    (extra_text <> "" ->
       fst (extract_text_from_image zero_conf_env [[0%Z]] [])
       = inr ("abc" ++ NL ++ extra_text, (0 + extra_conf) / 2,
              classify_image ((0 + extra_conf) / 2) false 0)) /\
    (extra_text = "" ->
       fst (extract_text_from_image zero_conf_env [[0%Z]] [])
       = inr ("abc", 0, classify_image 0 false 0)).
Proof.
  destruct enhanced_pass_merge as (_ & I).
  exact (I unit zero_conf_env [[0%Z]] [] _ _ eq_refl eq_refl).
Defined.

(** C4 as stated fails: an image read at confidence 50 triggers the
    enhanced pass, which returns confidence 90 and an empty text; the final
    confidence is 50, not the mean 70. *)
Lemma empty_enhanced_text_is_ignored :
  (exists t1,
      image_front silent_enhanced_env [[0%Z]] []
        = (inr (mkScan "std" 50 false 0 [[0%Z]]), t1) /\
      fst (enhanced_handwritten_ocr silent_enhanced_env [[0%Z]] t1)
        = inr ("", 90)) /\
  image_trigger (mkScan "std" 50 false 0 [[0%Z]]) = true /\
  runs f_enhanced_handwritten_ocr
    (snd (extract_text_from_image silent_enhanced_env [[0%Z]] [])) = 1%nat /\
  fst (extract_text_from_image silent_enhanced_env [[0%Z]] [])
    = inr ("std", 50, "low_quality_image") /\
  ~ 50 == (50 + 90) / 2 /\
  "std" <> "std" ++ NL ++ "".
Proof.
  split; [eexists; split; vm_compute; reflexivity |].
  split; [reflexivity |].
  split; [vm_compute; reflexivity |].
  split; [vm_compute; reflexivity |].
  split; [intro H; vm_compute in H; discriminate H | discriminate].
Qed.

(** ** The end-to-end operation *)

Lemma str_in_pair (x a b : string) :
  str_in x [a; b] = true <-> x = a \/ x = b.
Proof.
  unfold str_in. cbn [existsb]. rewrite !orb_true_iff, !String.eqb_eq.
  split; [intros [H | [H | H]] | intros [H | H]]; auto; discriminate H.
Qed.

(** C5, as the code has it.  A failed download, an image that cannot be
    decoded and every exception raised while an image is extracted surface
    to the caller of the end-to-end operation as an error response that
    carries the message of the cause and no extraction field.  For a PDF
    url the end-to-end operation always returns an extraction response:
    an exception raised inside the PDF extraction is absorbed there and
    gives the label error_pdf, confidence 0.0, the flag false and the text
    "(Error extracting text)". *)
Theorem failures_surface :
  forall Document (env : Env Document) (u : string) (t : Trace),
    (forall e, requests_get env u = inl e ->
               fst (process_from_url env u t) = ErrorResponse e) /\
    (forall file_content, requests_get env u = inr file_content ->
       is_pdf_url u = false ->
       (forall e, cv2_imdecode env file_content = inl e ->
                  fst (process_from_url env u t) = ErrorResponse e) /\
       (cv2_imdecode env file_content = inr None ->
        fst (process_from_url env u t)
        = ErrorResponse "Could not decode image from URL content") /\
       (forall image e,
           cv2_imdecode env file_content = inr (Some image) ->
           fst (extract_text_from_image env image
                  ((t ++ [ev_requests_get]) ++ [ev_imdecode])%list) = inl e ->
           fst (process_from_url env u t) = ErrorResponse e)) /\
    (forall file_content, requests_get env u = inr file_content ->
       is_pdf_url u = true ->
       exists r,
         fst (process_from_url env u t) = Result r /\
         (forall e,
             fst (pdf_body env file_content (t ++ [ev_requests_get])%list)
               = inl e ->
             r = mkResponse u "error_pdf" 0 false "(Error extracting text)")).
Proof.
  intros Document env u t.
  split; [| split].
  - intros e G.
    unfold process_from_url, process_body, download_file_from_url,
      try_except, bind, call, raise.
    rewrite G. reflexivity.
  - intros file_content G P.
    unfold process_from_url, process_body, download_file_from_url,
      try_except, bind, call, raise.
    rewrite G, P.
    split; [| split].
    + intros e D. rewrite D. reflexivity.
    + intro D. rewrite D. reflexivity.
    + intros image e D X. rewrite D.
      destruct (extract_text_from_image env image _) as [[e' | r] t1].
      * cbn [fst] in X. inversion X. reflexivity.
      * discriminate X.
  - intros file_content G P.
    unfold process_from_url, process_body, download_file_from_url,
      extract_text_from_pdf, try_except, bind, call, raise, ret.
    rewrite G, P.
    destruct (pdf_body env file_content _) as [[e' | [[text conf] pdf_type]] t1].
    + eexists. split; [reflexivity |]. intros e _. reflexivity.
    + eexists. split; [reflexivity |]. intros e X. discriminate X.
Qed.

Lemma failures_surface_witness :
  exists r,
    fst (process_from_url broken_pdf_env "scan.pdf" []) = Result r /\
    (forall e,
        fst (pdf_body broken_pdf_env [] ([] ++ [ev_requests_get])%list)
          = inl e ->
        r = mkResponse "scan.pdf" "error_pdf" 0 false
              "(Error extracting text)").
Proof.
  destruct (failures_surface unit broken_pdf_env "scan.pdf" [])
    as (_ & _ & H).
  exact (H [] eq_refl eq_refl).
Defined.

(** C5 as stated fails: when the text-layer reader rejects a PDF, the
    caller gets an extraction response labelled error_pdf, not an error
    response with the reader's message. *)
Lemma pdf_failure_is_absorbed :
  fst (pdf_body broken_pdf_env [] [ev_requests_get])
    = inl "EOF marker not found" /\
  fst (process_from_url broken_pdf_env "scan.pdf" [])
    = Result (mkResponse "scan.pdf" "error_pdf" 0 false
                    "(Error extracting text)") /\
  fst (process_from_url broken_pdf_env "scan.pdf" [])
    <> ErrorResponse "EOF marker not found".
Proof.
  split; [vm_compute; reflexivity |].
  split; [vm_compute; reflexivity |].
  vm_compute. discriminate.
Qed.

(** C6, as the code has it.  In every extraction response the flag is a
    function of the family and the label: for a PDF url it is true exactly
    when the label is handwritten_pdf or image_pdf, for any other url
    exactly when the label is handwritten_image or
    mixed_handwritten_image; deriving it again from the url suffix and the
    label gives the stored flag. *)
Theorem handwritten_flag_from_family_and_label :
  forall Document (env : Env Document) (u : string) (t : Trace)
         (r : ExtractionResponse),
    fst (process_from_url env u t) = Result r ->
    url r = u /\
    is_handwritten r
    = (if is_pdf_url u then pdf_is_handwritten (file_type r)
       else image_is_handwritten (file_type r)) /\
    (is_pdf_url u = true ->
       (is_handwritten r = true <->
          file_type r = "handwritten_pdf" \/ file_type r = "image_pdf")) /\
    (is_pdf_url u = false ->
       (is_handwritten r = true <->
          file_type r = "handwritten_image"
          \/ file_type r = "mixed_handwritten_image")).
Proof.
  intros Document env u t r H.
  assert (A : url r = u /\
              is_handwritten r
              = (if is_pdf_url u then pdf_is_handwritten (file_type r)
                 else image_is_handwritten (file_type r))).
  { unfold process_from_url, process_body, bind in H.
    destruct (download_file_from_url env u t) as [[e | file_content] t1];
      [discriminate H |].
    destruct (is_pdf_url u).
    - destruct (extract_text_from_pdf env file_content t1)
        as [[e | [[text conf] pdf_type]] t2]; [discriminate H |].
      unfold ret in H. cbn [fst] in H. inversion H. split; reflexivity.
    - destruct (call ev_imdecode (cv2_imdecode env file_content) t1)
        as [[e | [image |]] t2]; try discriminate H.
      destruct (extract_text_from_image env image t2)
        as [[e | [[text conf] img_type]] t3]; [discriminate H |].
      unfold ret in H. cbn [fst] in H. inversion H. split; reflexivity. }
  destruct A as [U F]. split; [exact U |]. split; [exact F |].
  split; intro P; rewrite P in F; rewrite F.
  - apply str_in_pair.
  - apply str_in_pair.
Qed.

Lemma handwritten_flag_from_family_and_label_witness :
  url (mkResponse "a.png" "image_pdf" 70 false "text") = "a.png" /\
  false = (if is_pdf_url "a.png" then pdf_is_handwritten "image_pdf"
           else image_is_handwritten "image_pdf") /\
  (is_pdf_url "a.png" = true ->
     (false = true <->
        "image_pdf" = "handwritten_pdf" \/ "image_pdf" = "image_pdf")) /\
  (is_pdf_url "a.png" = false ->
     (false = true <->
        "image_pdf" = "handwritten_image"
        \/ "image_pdf" = "mixed_handwritten_image")).
Proof.
  exact (handwritten_flag_from_family_and_label unit cross_family_env
           "a.png" [] (mkResponse "a.png" "image_pdf" 70 false "text")
           eq_refl).
Defined.

(** C6 as stated fails: the label image_pdf is stored with the flag true in
    the response for a scanned PDF and with the flag false in the response
    for an image, so no function of the label alone gives the stored
    flag. *)
Lemma same_label_two_flags :
  fst (process_from_url clean_pdf_env "a.pdf" [])
    = Result (mkResponse "a.pdf" "image_pdf" 90 true "text") /\
  fst (process_from_url cross_family_env "a.png" [])
    = Result (mkResponse "a.png" "image_pdf" 70 false "text") /\
  forall rederive : string -> bool,
    ~ (rederive "image_pdf" = true /\ rederive "image_pdf" = false).
Proof.
  split; [vm_compute; reflexivity |].
  split; [vm_compute; reflexivity |].
  intros rederive [A B]. congruence.
Qed.

(** C8.  For every PDF whose embedded text layer, stripped, is longer than
    50 characters, the pipeline returns that stripped text with the label
    text_pdf and the confidence 95.0, and the only library call it makes
    is the reading of the text layer: no page is rasterised, preprocessed
    or recognised and no structural signal is computed. *)
Theorem text_layer_fast_path :
  forall Document (env : Env Document) (pdf_bytes : bytes) (t : Trace)
         (pages : list (option string)),
    PdfReader_pages env pdf_bytes = inr pages ->
    let text := PyStr.strip (String.concat "" (map text_or_empty pages)) in
    (50 < String.length text)%nat ->
    extract_text_from_pdf env pdf_bytes t
      = (inr (text, 95, "text_pdf"), (t ++ [ev_PdfReader])%list) /\
    (forall u, is_pdf_url u = true ->
               requests_get env u = inr pdf_bytes ->
               process_from_url env u t
               = (Result (mkResponse u "text_pdf" 95 false text),
                  ((t ++ [ev_requests_get]) ++ [ev_PdfReader])%list)).
Proof.
  intros Document env pdf_bytes t pages R text L.
  assert (X : forall t0,
             extract_text_from_pdf env pdf_bytes t0
             = (inr (text, 95, "text_pdf"), (t0 ++ [ev_PdfReader])%list)).
  { intro t0.
    unfold extract_text_from_pdf, pdf_body, pdf_front, try_except, bind,
      call, ret.
    rewrite R. fold text.
    apply Nat.ltb_lt in L. rewrite L. reflexivity. }
  split; [apply X |].
  intros u P G.
  unfold process_from_url, process_body, download_file_from_url,
    try_except, bind, call, raise.
  rewrite G, P, X. unfold ret, text_or_placeholder.
  destruct text as [| a rest] eqn:T; [cbn in L; lia |].
  reflexivity.
Qed.

Lemma text_layer_fast_path_witness :
  extract_text_from_pdf text_pdf_env [] []
    = (inr (PyStr.strip (sixty ++ "tail"), 95, "text_pdf"), [ev_PdfReader]) /\
  (forall u, is_pdf_url u = true ->
             requests_get text_pdf_env u = inr [] ->
             process_from_url text_pdf_env u []
             = (Result (mkResponse u "text_pdf" 95 false
                              (PyStr.strip (sixty ++ "tail"))),
                [ev_requests_get; ev_PdfReader])).
Proof.
  apply (text_layer_fast_path unit text_pdf_env [] []
           [Some sixty; None; Some "tail"] eq_refl).
  vm_compute. lia.
Defined.

(** * Further properties of the pipeline *)

(** ** The shapes of the results *)

Lemma pdf_front_early {Document} (env : Env Document) (b : bytes)
    (t t1 : Trace) (early : string * Q * string) :
  pdf_front env b t = (inr (inl early), t1) ->
  exists text, early = (text, 95, "text_pdf") /\ (50 < String.length text)%nat.
Proof.
  intro H.
  unfold pdf_front in H. unfold bind at 1 in H. unfold call at 1 in H.
  destruct (PdfReader_pages env b) as [e | pages]; [discriminate H |].
  destruct (50 <? _)%nat eqn:L.
  - unfold ret in H. inversion H. eexists. split; [reflexivity |].
    apply Nat.ltb_lt. exact L.
  - exfalso.
    unfold bind at 1 in H. unfold call at 1 in H.
    destruct (fitz_open env b) as [e | doc]; [discriminate H |].
    unfold bind at 1 in H.
    destruct (pdf_pages env doc _ [] [] _) as [[e | [all_text confs]] t2];
      [discriminate H |].
    unfold bind at 1 in H. unfold call at 1 in H.
    destruct (fitz_render env doc 0) as [e | np_img]; [discriminate H |].
    unfold bind at 1 in H.
    destruct (detect_handwriting_texture env np_img _) as [[e | tx] t3];
      [discriminate H |].
    unfold bind at 1 in H.
    destruct (analyze_contour_irregularity env np_img _) as [[e | k] t4];
      [discriminate H |].
    unfold ret in H. discriminate H.
Qed.

Lemma extract_pdf_outcome {Document} (env : Env Document) (b : bytes)
    (t : Trace) :
  exists r t', extract_text_from_pdf env b t = (inr r, t') /\
               PdfOutcome env b t r t'.
Proof.
  destruct (pdf_front env b t) as [[e | [early | s]] t1] eqn:F.
  - exists ("(Error extracting text)", 0, "error_pdf"), t1. split.
    + unfold extract_text_from_pdf, pdf_body, try_except, bind.
      rewrite F. reflexivity.
    + eapply pdf_failed. exact F.
  - destruct (pdf_front_early env b t t1 early F) as (text & -> & L).
    exists (text, 95, "text_pdf"), t1. split.
    + unfold extract_text_from_pdf, pdf_body, try_except, bind.
      rewrite F. reflexivity.
    + apply pdf_text_layer; assumption.
  - destruct (pdf_after_front Document env b t t1 s F)
      as (text & c & t2 & R & E).
    eexists. exists t2. split; [exact E |].
    eapply pdf_scanned; eassumption.
Qed.

(** the two ways [extract_text_from_image] ends *)
Lemma extract_image_outcome {Document} (env : Env Document)
    (image : ndarray) (t : Trace) :
  (exists e t1, image_front env image t = (inl e, t1) /\
                extract_text_from_image env image t = (inl e, t1)) \/
  (exists s t1 text c t2,
      image_front env image t = (inr s, t1) /\
      refine env (image_trigger s) s t1 = (inr (text, c), t2) /\
      extract_text_from_image env image t
      = (inr (text, c, classify_image c (sc_texture s) (sc_contour s)), t2)).
Proof.
  destruct (image_front env image t) as [[e | s] t1] eqn:F.
  - left. exists e, t1. split; [reflexivity |].
    unfold extract_text_from_image, bind. rewrite F. reflexivity.
  - right.
    destruct (image_after_front Document env image t t1 s F)
      as (text & c & t2 & R & E).
    exists s, t1, text, c, t2. auto.
Qed.

(** ** Labels *)

Lemma classify_pdf_facts (c : Q) (tx : bool) (k : Q) :
  In (classify_pdf c tx k)
    ["image_pdf"; "mixed_image_pdf"; "low_quality_image_pdf";
     "low_quality_printed_pdf"; "handwritten_pdf"] /\
  (classify_pdf c tx k = "handwritten_pdf" <-> c < 40) /\
  (classify_pdf c tx k = "image_pdf" <->
     80 <= c \/ (60 <= c /\ signal tx k = false)).
Proof.
  unfold classify_pdf.
  band c; cbn [andb negb]; destruct (signal tx k); cbn [negb];
    (split; [cbn; tauto |]);
    split; split; intro H; try discriminate H; try reflexivity;
      try lra; try (exfalso; lra);
      try (left; lra); try (right; split; [lra | reflexivity]);
      try (destruct H as [H | [H H']]; try discriminate H'; exfalso; lra).
Qed.

Lemma classify_image_facts (c : Q) (tx : bool) (k : Q) :
  In (classify_image c tx k) image_labels /\
  (classify_image c tx k = "handwritten_image" <-> c < 40) /\
  (60 <= c -> signal tx k = false -> classify_image c tx k = "printed_image").
Proof.
  unfold classify_image, image_labels.
  band c; cbn [andb negb]; destruct (signal tx k); cbn [negb];
    (split; [cbn; tauto |]);
    (split; [split; intro H; try discriminate H; try reflexivity;
             try lra; try (exfalso; lra) |]);
    intros H1 H2; try discriminate H2; try reflexivity; exfalso; lra.
Qed.

(** ** Bounds *)

Lemma inject_length_cons {A} (x : A) (l : list A) :
  inject_Z (Z.of_nat (List.length (x :: l)))
  == inject_Z (Z.of_nat (List.length l)) + 1.
Proof.
  cbn [List.length]. rewrite Nat2Z.inj_succ. unfold Z.succ.
  rewrite inject_Z_plus. reflexivity.
Qed.

Lemma sumQ_in_range (l : list Q) :
  Forall in_range l ->
  0 <= sumQ l /\ sumQ l <= 100 * inject_Z (Z.of_nat (List.length l)).
Proof.
  induction 1 as [| q l [Hq1 Hq2] _ [IH1 IH2]].
  - split; vm_compute; discriminate.
  - rewrite inject_length_cons. cbn [sumQ fold_right].
    fold (sumQ l). split; lra.
Qed.

Lemma mean_Q_in_range (l : list Q) :
  l <> [] -> Forall in_range l -> in_range (mean_Q l).
Proof.
  intros N H. destruct (sumQ_in_range l H) as [S1 S2].
  assert (P : 0 < inject_Z (Z.of_nat (List.length l))).
  { destruct l as [| q l']; [congruence |].
    rewrite inject_length_cons.
    assert (0 <= inject_Z (Z.of_nat (List.length l'))).
    { change 0 with (inject_Z 0). rewrite <- Zle_Qle. lia. }
    lra. }
  unfold mean_Q. split.
  - apply Qle_shift_div_l; [exact P | lra].
  - apply Qle_shift_div_r; [exact P | exact S2].
Qed.

Lemma mean_or_zeroQ_in_range (l : list Q) :
  Forall in_range l -> in_range (mean_or_zeroQ l).
Proof.
  intro H. destruct l as [| q l'] eqn:E.
  - cbn. split; lra.
  - cbn [mean_or_zeroQ]. unfold in_range. rewrite np_mean_correct.
    apply mean_Q_in_range; [discriminate | exact H].
Qed.

Lemma mean_or_zero_in_range (l : list Z) :
  Forall (fun n => (0 < n)%Z) l -> Forall (fun n => (n <= 100)%Z) l ->
  in_range (mean_or_zero l).
Proof.
  intros P B.
  assert (R : Forall in_range (map inject_Z l)).
  { apply Forall_forall. intros q Hq. apply in_map_iff in Hq.
    destruct Hq as (n & <- & Hn).
    rewrite Forall_forall in P, B. specialize (P n Hn). specialize (B n Hn).
    unfold in_range. split.
    - change 0 with (inject_Z 0). rewrite <- Zle_Qle. lia.
    - change 100 with (inject_Z 100). rewrite <- Zle_Qle. exact B. }
  destruct l as [| n l']; [cbn; split; lra |].
  cbn [mean_or_zero]. unfold np_mean_Z, in_range. rewrite np_mean_correct.
  apply mean_Q_in_range; [discriminate | exact R].
Qed.

Lemma usable_mean_in_range {Document} (env : Env Document) img data :
  engine_bounded env ->
  image_to_data_conf env img = inr data ->
  in_range (mean_or_zero (usable_confs data)).
Proof.
  intros B H. apply mean_or_zero_in_range.
  - apply usable_confs_positive.
  - exact (B img data H).
Qed.

(** what the enhanced pass returns, in terms of its six library calls *)
Lemma enhanced_by_chain {Document} (env : Env Document) (image : ndarray)
    (t : Trace) :
  fst (enhanced_handwritten_ocr env image t)
  = inr (match enhanced_chain env image with
         | inl _ => ("", 0)
         | inr (s, data) => (PyStr.strip s, mean_or_zero (usable_confs data))
         end).
Proof.
  unfold enhanced_handwritten_ocr, enhanced_chain, ebind, bind, try_except,
    call, enter, lift, ret.
  destruct (cv2_cvtColor env image) as [e | gray]; [reflexivity |].
  destruct (cv2_convertScaleAbs env gray) as [e | g2]; [reflexivity |].
  destruct (cv2_bilateralFilter env g2) as [e | g3]; [reflexivity |].
  destruct (cv2_threshold env g3) as [e | binary]; [reflexivity |].
  destruct (image_to_string env cfg_psm6_oem3 binary) as [e | s];
    [reflexivity |].
  destruct (image_to_data_conf env binary) as [e | data]; [reflexivity |].
  rewrite positive_confs_usable. reflexivity.
Qed.

Lemma enhanced_chain_data {Document} (env : Env Document) image s data :
  enhanced_chain env image = inr (s, data) ->
  exists binary, image_to_data_conf env binary = inr data.
Proof.
  unfold enhanced_chain, ebind.
  destruct (cv2_cvtColor env image) as [e | gray]; [discriminate |].
  destruct (cv2_convertScaleAbs env gray) as [e | g2]; [discriminate |].
  destruct (cv2_bilateralFilter env g2) as [e | g3]; [discriminate |].
  destruct (cv2_threshold env g3) as [e | binary]; [discriminate |].
  destruct (image_to_string env cfg_psm6_oem3 binary) as [e | s'];
    [discriminate |].
  destruct (image_to_data_conf env binary) as [e | data'] eqn:D;
    [discriminate |].
  intro H. inversion H. subst. exists binary. exact D.
Qed.

Lemma enhanced_conf_in_range {Document} (env : Env Document) image t et ec t' :
  engine_bounded env ->
  enhanced_handwritten_ocr env image t = (inr (et, ec), t') ->
  in_range ec.
Proof.
  intros B H. pose proof (enhanced_by_chain env image t) as C.
  rewrite H in C. cbn [fst] in C.
  destruct (enhanced_chain env image) as [e | [s data]] eqn:K.
  - inversion C. split; lra.
  - inversion C. destruct (enhanced_chain_data env image s data K)
      as (binary & D).
    exact (usable_mean_in_range env binary data B D).
Qed.

Lemma refine_in_range {Document} (env : Env Document) trigger s t text c t' :
  engine_bounded env ->
  in_range (sc_conf s) ->
  refine env trigger s t = (inr (text, c), t') ->
  in_range c.
Proof.
  intros B R H. destruct trigger.
  - destruct (refine_triggered Document env s t) as (et & ec & t2 & E & X).
    rewrite X in H. inversion H. subst.
    pose proof (enhanced_conf_in_range env _ _ _ _ _ B E) as [E1 E2].
    destruct R as [R1 R2]. unfold refined in *.
    destruct (PyStr.truthy et); inversion H1; subst.
    + split.
      * apply Qle_shift_div_l; lra.
      * apply Qle_shift_div_r; lra.
    + split; assumption.
  - rewrite refine_idle in H. inversion H. subst. exact R.
Qed.

Lemma pdf_front_in_range {Document} (env : Env Document) b t s t1 :
  engine_bounded env ->
  pdf_front env b t = (inr (inr s), t1) ->
  in_range (sc_conf s).
Proof.
  intros B H.
  unfold pdf_front in H. unfold bind at 1 in H. unfold call at 1 in H.
  destruct (PdfReader_pages env b) as [e | pages]; [discriminate H |].
  destruct (50 <? _)%nat; [discriminate H |].
  unfold bind at 1 in H. unfold call at 1 in H.
  destruct (fitz_open env b) as [e | doc]; [discriminate H |].
  unfold bind at 1 in H.
  destruct (pdf_pages env doc (seq 0 (fitz_len env doc)) [] [] _)
    as [[e | [all_text confidences]] t2] eqn:L; [discriminate H |].
  apply pdf_pages_confidences in L. destruct L as (datas & F & C).
  cbn [app] in C.
  unfold bind at 1 in H. unfold call at 1 in H.
  destruct (fitz_render env doc 0) as [e | np_img]; [discriminate H |].
  unfold bind at 1 in H.
  destruct (detect_handwriting_texture env np_img _) as [[e | tx] t3];
    [discriminate H |].
  unfold bind at 1 in H.
  destruct (analyze_contour_irregularity env np_img _) as [[e | k] t4];
    [discriminate H |].
  unfold ret in H. inversion H. subst. cbn [sc_conf].
  apply mean_or_zeroQ_in_range. apply Forall_forall.
  intros q Hq. apply in_map_iff in Hq. destruct Hq as (l & <- & Hl).
  apply filter_In in Hl. destruct Hl as [Hl Hne].
  apply in_map_iff in Hl. destruct Hl as (data & <- & Hd).
  assert (P : exists n, page_pass env doc n data).
  { clear - F Hd. induction F as [| n d ns ds Hp _ IH].
    - destruct Hd.
    - destruct Hd as [-> | Hd]; [exists n; exact Hp | exact (IH Hd)]. }
  destruct P as (n & np & gray & blurred & processed & txt & _ & _ & _ & _
                 & D & _).
  pose proof (usable_mean_in_range env processed data B D) as R.
  destruct (usable_confs data); [discriminate Hne | exact R].
Qed.

Lemma image_front_in_range {Document} (env : Env Document) image t s t1 :
  engine_bounded env ->
  image_front env image t = (inr s, t1) ->
  in_range (sc_conf s).
Proof.
  intros B F.
  unfold image_front, preprocess_image, bind, call, enter, lift in F.
  destruct (cv2_cvtColor env image) as [e | gray]; [discriminate F |].
  destruct (cv2_GaussianBlur env gray) as [e | blurred]; [discriminate F |].
  destruct (cv2_adaptiveThreshold env blurred) as [e | processed];
    [discriminate F |].
  destruct (image_to_data_conf env processed) as [e | data] eqn:D;
    [discriminate F |].
  destruct (image_to_string env cfg_default processed) as [e | txt];
    [discriminate F |].
  rewrite positive_confs_usable in F.
  destruct (detect_handwriting_texture env image _) as [[e | tx] t2];
    [discriminate F |].
  destruct (analyze_contour_irregularity env image _) as [[e | k] t3];
    [discriminate F |].
  unfold ret in F. inversion F. subst. cbn [sc_conf].
  exact (usable_mean_in_range env processed data B D).
Qed.

Lemma hundredths_in_range (m : Z) :
  (0 <= m <= 10000)%Z -> in_range (Qred (inject_Z m / 100)).
Proof.
  intros [H1 H2]. unfold in_range. rewrite Qred_correct.
  assert (A : 0 <= inject_Z m).
  { change 0 with (inject_Z 0). rewrite <- Zle_Qle. exact H1. }
  assert (B : inject_Z m <= 10000).
  { change 10000 with (inject_Z 10000). rewrite <- Zle_Qle. exact H2. }
  split.
  - apply Qle_shift_div_l; lra.
  - apply Qle_shift_div_r; lra.
Qed.

(** rounding to two decimals keeps a confidence between 0 and 100 *)
Lemma round2_in_range (q : Q) : in_range q -> in_range (round2 q).
Proof.
  intros [H1 H2]. unfold round2.
  set (x := q * 100).
  assert (X1 : 0 <= x) by (unfold x; lra).
  assert (X2 : x <= 10000) by (unfold x; lra).
  assert (N1 : (0 <= Qfloor x)%Z).
  { change 0%Z with (Qfloor 0). apply Qfloor_resp_le. exact X1. }
  assert (N2 : (Qfloor x <= 10000)%Z).
  { change 10000%Z with (Qfloor 10000). apply Qfloor_resp_le. exact X2. }
  assert (N3 : (1 # 2) <= x - inject_Z (Qfloor x) -> (Qfloor x + 1 <= 10000)%Z).
  { intro R.
    assert (L : inject_Z (Qfloor x) < inject_Z 10000).
    { change (inject_Z 10000) with 10000. lra. }
    rewrite <- Zlt_Qlt in L. lia. }
  apply hundredths_in_range.
  destruct (Qlt_le_dec (x - inject_Z (Qfloor x)) (1 # 2)) as [L | L].
  - lia.
  - destruct (Qlt_le_dec (1 # 2) (x - inject_Z (Qfloor x))) as [G | G].
    + specialize (N3 L). lia.
    + specialize (N3 L). destruct (Z.even (Qfloor x)); lia.
Qed.

(** X1.  When the recognition engine reports token confidences of at most
    100, the confidence of every extraction response lies between 0 and
    100, whatever the number of pages and whether or not the enhanced pass
    was merged in. *)
Theorem response_confidence_in_range :
  forall Document (env : Env Document) (u : string) (t : Trace)
         (r : ExtractionResponse),
    engine_bounded env ->
    fst (process_from_url env u t) = Result r ->
    0 <= confidence r /\ confidence r <= 100.
Proof.
  intros Document env u t r B H.
  unfold process_from_url, process_body, bind in H.
  destruct (download_file_from_url env u t) as [[e | file_content] t1];
    [discriminate H |].
  destruct (is_pdf_url u).
  - destruct (extract_pdf_outcome env file_content t1) as (x & t2 & E & O).
    rewrite E in H. destruct x as [[text conf] pdf_type].
    unfold ret in H. cbn [fst] in H. inversion H. cbn [confidence].
    apply round2_in_range.
    inversion O; subst.
    + split; lra.
    + split; lra.
    + match goal with
      | F : pdf_front _ _ _ = (inr (inr ?s), _),
        R : refine _ _ ?s _ = _ |- _ =>
          exact (refine_in_range env _ _ _ _ _ _ B
                   (pdf_front_in_range env _ _ _ _ B F) R)
      end.
  - destruct (call ev_imdecode (cv2_imdecode env file_content) t1)
      as [[e | [image |]] t2]; try discriminate H.
    destruct (extract_image_outcome env image t2)
      as [(e & t3 & _ & E) | (s & t3 & text & c & t4 & F & R & E)];
      rewrite E in H; [discriminate H |].
    unfold ret in H. cbn [fst] in H. inversion H. cbn [confidence].
    apply round2_in_range.
    exact (refine_in_range env _ _ _ _ _ _ B
             (image_front_in_range env _ _ _ _ B F) R).
Qed.

Lemma clean_pdf_env_bounded : engine_bounded clean_pdf_env.
Proof.
  intros img data H. cbn in H.
  repeat match type of H with
         | context [match ?x with _ => _ end] => destruct x
         end;
    inversion H; subst; vm_compute; repeat constructor; discriminate.
Qed.

Lemma response_confidence_in_range_witness :
  0 <= 90 /\ 90 <= 100.
Proof.
  exact (response_confidence_in_range unit clean_pdf_env "a.pdf" []
           (mkResponse "a.pdf" "image_pdf" 90 true "text")
           clean_pdf_env_bounded eq_refl).
Defined.

(** ** The endpoints *)

Lemma pdf_outcome_handwritten {Document} (env : Env Document) b t
    text c label t' :
  PdfOutcome env b t (text, c, label) t' ->
  (str_in label ["handwritten_pdf"] || Qlt_bool c 40 = true <-> c < 40).
Proof.
  intro O. rewrite orb_true_iff, Qlt_bool_iff.
  split; [| intro H; right; exact H].
  intros [H | H]; [| exact H].
  unfold str_in in H. cbn [existsb] in H. rewrite orb_false_r in H.
  apply String.eqb_eq in H.
  inversion O; subst; try discriminate.
  match goal with
  | E : classify_pdf _ _ _ = _ |- _ => apply classify_pdf_facts in E; exact E
  end.
Qed.

(** X2.  In every answer of [verify_handwritten] the flag is true exactly
    when the confidence the extraction returned is below 40: the test on
    the label adds nothing, for a PDF or for an image. *)
Theorem verify_flag_is_low_confidence :
  forall Document (env : Env Document) (u : string) (t : Trace)
         (file_content : bytes),
    requests_get env u = inr file_content ->
    (is_pdf_url u = true ->
     exists text c label t' v,
       extract_text_from_pdf env file_content (t ++ [ev_requests_get])%list
         = (inr (text, c, label), t') /\
       verify_handwritten env u t
         = (Returned (mkAPIResponse true
                        "Handwritten verification completed successfully." v),
            t') /\
       v_file_type v = label /\ v_confidence v = round2 c /\
       (v_is_handwritten v = true <-> c < 40)) /\
    (is_pdf_url u = false ->
     forall image text c label t',
       cv2_imdecode env file_content = inr (Some image) ->
       extract_text_from_image env image
         ((t ++ [ev_requests_get]) ++ [ev_imdecode])%list
         = (inr (text, c, label), t') ->
       exists v,
         verify_handwritten env u t
           = (Returned (mkAPIResponse true
                          "Handwritten verification completed successfully." v),
              t') /\
         v_file_type v = label /\ v_confidence v = round2 c /\
         (v_is_handwritten v = true <-> c < 40)).
Proof.
  intros Document env u t file_content G. split; intro P.
  - destruct (extract_pdf_outcome env file_content
                (t ++ [ev_requests_get])%list)
      as ([[text c] label] & t' & E & O).
    exists text, c, label, t'. eexists. split; [exact E |].
    unfold verify_handwritten, verify_body, download_file_from_url,
      try_except, bind, call, raise.
    rewrite G, P, E. unfold ret.
    split; [reflexivity |]. cbn [v_file_type v_confidence v_is_handwritten].
    split; [reflexivity |]. split; [reflexivity |].
    exact (pdf_outcome_handwritten env _ _ _ _ _ _ O).
  - intros image text c label t' D E.
    eexists.
    unfold verify_handwritten, verify_body, download_file_from_url,
      try_except, bind, call, raise.
    rewrite G, P, D, E. unfold ret.
    split; [reflexivity |]. cbn [v_file_type v_confidence v_is_handwritten].
    split; [reflexivity |]. split; [reflexivity |].
    rewrite orb_true_iff, Qlt_bool_iff.
    split; [| intro H; right; exact H].
    intros [H | H]; [| exact H].
    apply String.eqb_eq in H.
    destruct (extract_image_outcome env image
                ((t ++ [ev_requests_get]) ++ [ev_imdecode])%list)
      as [(e & t3 & _ & X) | (s & t3 & text' & c' & t4 & _ & _ & X)];
      rewrite X in E; [discriminate E |].
    inversion E; subst. 
    match goal with
    | K : classify_image _ _ _ = _ |- _ =>
        apply classify_image_facts in K; exact K
    end.
Qed.

Lemma verify_flag_is_low_confidence_witness :
  exists text c label t' v,
    extract_text_from_pdf broken_pdf_env [] ([] ++ [ev_requests_get])%list
      = (inr (text, c, label), t') /\
    verify_handwritten broken_pdf_env "scan.pdf" []
      = (Returned (mkAPIResponse true
                     "Handwritten verification completed successfully." v),
         t') /\
    v_file_type v = label /\ v_confidence v = round2 c /\
    (v_is_handwritten v = true <-> c < 40).
Proof.
  destruct (verify_flag_is_low_confidence unit broken_pdf_env "scan.pdf" []
              [] eq_refl) as [H _].
  exact (H eq_refl).
Defined.

(** X3.  [verify_handwritten] answers with status 500 and the message of
    the cause when the download fails, when the image cannot be decoded and
    when the image extraction raises.  For a PDF url it never fails once
    the file is downloaded: a PDF whose extraction raised is answered as a
    success, labelled error_pdf with confidence 0.0 and reported as
    handwritten. *)
Theorem verify_failures :
  forall Document (env : Env Document) (u : string) (t : Trace),
    (forall e, requests_get env u = inl e ->
               fst (verify_handwritten env u t) = HTTPException 500 e) /\
    (forall file_content, requests_get env u = inr file_content ->
       is_pdf_url u = false ->
       (cv2_imdecode env file_content = inr None ->
        fst (verify_handwritten env u t)
        = HTTPException 500 "Could not decode image from URL content") /\
       (forall image e,
           cv2_imdecode env file_content = inr (Some image) ->
           fst (extract_text_from_image env image
                  ((t ++ [ev_requests_get]) ++ [ev_imdecode])%list) = inl e ->
           fst (verify_handwritten env u t) = HTTPException 500 e)) /\
    (forall file_content, requests_get env u = inr file_content ->
       is_pdf_url u = true ->
       (exists r, fst (verify_handwritten env u t) = Returned r) /\
       (forall e,
           fst (pdf_body env file_content (t ++ [ev_requests_get])%list)
             = inl e ->
           fst (verify_handwritten env u t)
           = Returned
               (mkAPIResponse true
                  "Handwritten verification completed successfully."
                  (mkVerification u "error_pdf" true 0
                     "fitz + Tesseract OCR"
                     "Detected handwritten PDF (low OCR confidence)")))).
Proof.
  intros Document env u t. split; [| split].
  - intros e G.
    unfold verify_handwritten, verify_body, download_file_from_url,
      try_except, bind, call, raise.
    rewrite G. reflexivity.
  - intros file_content G P.
    unfold verify_handwritten, verify_body, download_file_from_url,
      try_except, bind, call, raise.
    rewrite G, P. split.
    + intro D. rewrite D. reflexivity.
    + intros image e D X. rewrite D.
      destruct (extract_text_from_image env image _) as [[e' | r] t1].
      * cbn [fst] in X. inversion X. reflexivity.
      * discriminate X.
  - intros file_content G P.
    unfold verify_handwritten, verify_body, download_file_from_url,
      extract_text_from_pdf, try_except, bind, call, raise, ret.
    rewrite G, P.
    destruct (pdf_body env file_content _) as [[e' | [[text c] pdf_type]] t1].
    + split; [eexists; reflexivity |]. intros e _. reflexivity.
    + split; [eexists; reflexivity |]. intros e X. discriminate X.
Qed.

Lemma verify_failures_witness :
  fst (verify_handwritten broken_pdf_env "scan.pdf" [])
  = Returned
      (mkAPIResponse true
         "Handwritten verification completed successfully."
         (mkVerification "scan.pdf" "error_pdf" true 0
            "fitz + Tesseract OCR"
            "Detected handwritten PDF (low OCR confidence)")).
Proof.
  destruct (verify_failures unit broken_pdf_env "scan.pdf" [])
    as (_ & _ & H).
  destruct (H [] eq_refl eq_refl) as [_ K].
  exact (K "EOF marker not found" eq_refl).
Defined.

(** X4.  For a PDF url, [verify_handwritten] and [process_from_url] report
    the same label and the same rounded confidence, and the same
    handwritten flag except for exactly two labels: image_pdf, which only
    [process_from_url] flags, and error_pdf, which only
    [verify_handwritten] flags. *)
Theorem flags_of_the_two_endpoints :
  forall Document (env : Env Document) (u : string) (t : Trace)
         (file_content : bytes),
    requests_get env u = inr file_content ->
    is_pdf_url u = true ->
    exists r v t',
      process_from_url env u t = (Result r, t') /\
      verify_handwritten env u t
        = (Returned (mkAPIResponse true
                       "Handwritten verification completed successfully." v),
           t') /\
      v_file_type v = file_type r /\
      v_confidence v = confidence r /\
      (file_type r = "image_pdf" ->
         is_handwritten r = true /\ v_is_handwritten v = false) /\
      (file_type r = "error_pdf" ->
         is_handwritten r = false /\ v_is_handwritten v = true) /\
      (file_type r <> "image_pdf" -> file_type r <> "error_pdf" ->
         v_is_handwritten v = is_handwritten r).
Proof.
  intros Document env u t file_content G P.
  destruct (extract_pdf_outcome env file_content
              (t ++ [ev_requests_get])%list)
    as ([[text c] label] & t' & E & O).
  pose proof (pdf_outcome_handwritten env _ _ _ _ _ _ O) as V.
  do 2 eexists. exists t'.
  unfold process_from_url, process_body, verify_handwritten, verify_body,
    download_file_from_url, try_except, bind, call, raise.
  rewrite G, P, E. unfold ret.
  split; [reflexivity |]. split; [reflexivity |].
  cbn [file_type confidence is_handwritten v_file_type v_confidence
         v_is_handwritten].
  split; [reflexivity |]. split; [reflexivity |].
  set (vf := str_in label ["handwritten_pdf"] || Qlt_bool c 40) in *.
  assert (L : In label pdf_labels).
  { inversion O; subst.
    - cbn. tauto.
    - cbn. tauto.
    - pose proof (classify_pdf_facts c (sc_texture s) (sc_contour s))
        as (I & _). cbn in I |- *. tauto. }
  assert (F : label = "image_pdf" -> 60 <= c).
  { intro X. inversion O; subst; try discriminate.
    match goal with
    | K : classify_pdf _ _ _ = "image_pdf" |- _ =>
        apply classify_pdf_facts in K; destruct K as [K | [K _]]; lra
    end. }
  assert (Z0 : label = "error_pdf" -> c < 40).
  { intro X. inversion O; subst; try discriminate.
    - lra.
    - pose proof (classify_pdf_facts c (sc_texture s) (sc_contour s))
        as (I & _).
      match goal with
      | K : classify_pdf _ _ _ = "error_pdf" |- _ => rewrite K in I
      end.
      cbn in I. repeat (destruct I as [I | I]; try discriminate I).
      destruct I. }
  assert (W : c < 40 -> label = "handwritten_pdf" \/ label = "error_pdf").
  { intro X. inversion O; subst.
    - exfalso. lra.
    - right. reflexivity.
    - left. apply classify_pdf_facts. exact X. }
  assert (D : vf = true \/ vf = false) by (destruct vf; auto).
  split; [| split].
  - intro X. split; [rewrite X; reflexivity |].
    destruct D as [Y | Y]; [| exact Y].
    exfalso. apply F in X. apply V in Y. lra.
  - intro X. split; [rewrite X; reflexivity |].
    apply V. exact (Z0 X).
  - intros N1 N2. unfold pdf_is_handwritten.
    destruct D as [Y | Y]; rewrite Y.
    + apply V in Y. destruct (W Y) as [K | K]; [| contradiction].
      rewrite K. reflexivity.
    + symmetry. apply not_true_iff_false. intro K.
      apply str_in_pair in K. destruct K as [K | K]; [| contradiction].
      apply not_true_iff_false in Y. apply Y. apply V.
      inversion O; subst; try discriminate.
      match goal with
      | X : classify_pdf _ _ _ = "handwritten_pdf" |- _ =>
          apply classify_pdf_facts in X; exact X
      end.
Qed.

Lemma flags_of_the_two_endpoints_witness :
  exists r v t',
    process_from_url clean_pdf_env "a.pdf" [] = (Result r, t') /\
    verify_handwritten clean_pdf_env "a.pdf" []
      = (Returned (mkAPIResponse true
                     "Handwritten verification completed successfully." v),
         t') /\
    v_file_type v = file_type r /\
    v_confidence v = confidence r /\
    (file_type r = "image_pdf" ->
       is_handwritten r = true /\ v_is_handwritten v = false) /\
    (file_type r = "error_pdf" ->
       is_handwritten r = false /\ v_is_handwritten v = true) /\
    (file_type r <> "image_pdf" -> file_type r <> "error_pdf" ->
       v_is_handwritten v = is_handwritten r).
Proof.
  exact (flags_of_the_two_endpoints unit clean_pdf_env "a.pdf" [] []
           eq_refl eq_refl).
Defined.

Lemma placeholder_not_empty (text : string) : text_or_placeholder text <> "".
Proof. destruct text; discriminate. Qed.

Lemma response_shape :
  forall Document (env : Env Document) (u : string) (t : Trace)
         (r : ExtractionResponse),
    fst (process_from_url env u t) = Result r ->
    extracted_text r <> "" /\
    (is_pdf_url u = true -> In (file_type r) pdf_labels) /\
    (is_pdf_url u = false ->
       In (file_type r) image_labels /\
       (is_handwritten r = true <-> file_type r = "handwritten_image")) /\
    file_type r <> "mixed_handwritten_image".
Proof.
  intros Document env u t r H.
  unfold process_from_url, process_body, bind in H.
  destruct (download_file_from_url env u t) as [[e | file_content] t1];
    [discriminate H |].
  destruct (is_pdf_url u).
  - destruct (extract_pdf_outcome env file_content t1)
      as ([[text c] label] & t2 & E & O).
    rewrite E in H. unfold ret in H. cbn [fst] in H. inversion H.
    cbn [extracted_text file_type is_handwritten].
    assert (L : In label pdf_labels).
    { inversion O; subst.
      - cbn. tauto.
      - cbn. tauto.
      - pose proof (classify_pdf_facts c (sc_texture s) (sc_contour s))
          as (I & _). cbn in I |- *. tauto. }
    split; [apply placeholder_not_empty |].
    split; [intros _; exact L |].
    split; [intro X; discriminate X |].
    intro X. rewrite X in L. cbn in L.
    repeat (destruct L as [L | L]; try discriminate L). destruct L.
  - destruct (call ev_imdecode (cv2_imdecode env file_content) t1)
      as [[e | [image |]] t2]; try discriminate H.
    destruct (extract_image_outcome env image t2)
      as [(e & t3 & _ & E) | (s & t3 & text & c & t4 & F & R & E)];
      rewrite E in H; [discriminate H |].
    unfold ret in H. cbn [fst] in H. inversion H.
    cbn [extracted_text file_type is_handwritten].
    pose proof (classify_image_facts c (sc_texture s) (sc_contour s))
      as (I & _).
    set (label := classify_image c (sc_texture s) (sc_contour s)) in *.
    split; [apply placeholder_not_empty |].
    split; [intro X; discriminate X |].
    split.
    + intros _. split; [exact I |].
      unfold image_is_handwritten. rewrite str_in_pair.
      split; [| tauto].
      intros [X | X]; [exact X |].
      rewrite X in I. cbn in I.
      repeat (destruct I as [I | I]; try discriminate I). destruct I.
    + intro X. rewrite X in I. cbn in I.
      repeat (destruct I as [I | I]; try discriminate I). destruct I.
Qed.

(** X5.  Every extraction response carries a non-empty text and a label of
    its family's vocabulary; the label mixed_handwritten_image is never
    produced, so that for an image the handwritten flag is true exactly
    when the label is handwritten_image. *)
Theorem response_vocabulary :
  forall Document (env : Env Document) (u : string) (t : Trace)
         (r : ExtractionResponse),
    fst (process_from_url env u t) = Result r ->
    extracted_text r <> "" /\
    (is_pdf_url u = true -> In (file_type r) pdf_labels) /\
    (is_pdf_url u = false ->
       In (file_type r) image_labels /\
       (is_handwritten r = true <-> file_type r = "handwritten_image")) /\
    file_type r <> "mixed_handwritten_image".
Proof. exact response_shape. Qed.

Lemma response_vocabulary_witness :
  "text" <> "" /\
  (is_pdf_url "a.png" = true -> In "image_pdf" pdf_labels) /\
  (is_pdf_url "a.png" = false ->
     In "image_pdf" image_labels /\
     (false = true <-> "image_pdf" = "handwritten_image")) /\
  "image_pdf" <> "mixed_handwritten_image".
Proof.
  exact (response_vocabulary unit cross_family_env "a.png" []
           (mkResponse "a.png" "image_pdf" 70 false "text") eq_refl).
Defined.

(** X6.  [extract_data] answers with the status UNPROCESSABLE_ENTITY and
    the detail "Data extraction failed: " followed by the cause exactly
    when [process_from_url] returns an error dict, and otherwise with a
    success whose message counts the characters of the extracted text, of
    which there is at least one.  A PDF url whose download succeeds is
    always answered with a success; a failed download never is. *)
Theorem extract_data_answers :
  forall Document (env : Env Document) (status : Z) (u : string) (t : Trace),
    (forall e, fst (process_from_url env u t) = ErrorResponse e ->
       fst (extract_data env status u t)
       = HTTPException status ("Data extraction failed: " ++ e)) /\
    (forall r, fst (process_from_url env u t) = Result r ->
       fst (extract_data env status u t)
       = Returned (mkAPIResponse true
                     (PROCESS_SUCCESS_WITH_DATA
                        (String.length (extracted_text r))) r) /\
       (1 <= String.length (extracted_text r))%nat) /\
    (forall file_content, requests_get env u = inr file_content ->
       is_pdf_url u = true ->
       exists r, fst (extract_data env status u t)
                 = Returned (mkAPIResponse true
                               (PROCESS_SUCCESS_WITH_DATA
                                  (String.length (extracted_text r))) r)) /\
    (forall e, requests_get env u = inl e ->
       fst (extract_data env status u t)
       = HTTPException status ("Data extraction failed: " ++ e)).
Proof.
  intros Document env status u t.
  assert (A : forall e, fst (process_from_url env u t) = ErrorResponse e ->
                fst (extract_data env status u t)
                = HTTPException status ("Data extraction failed: " ++ e)).
  { intros e H. unfold extract_data.
    destruct (process_from_url env u t) as [[r | e'] t1];
      cbn [fst] in H; inversion H. reflexivity. }
  assert (B : forall r, fst (process_from_url env u t) = Result r ->
       fst (extract_data env status u t)
       = Returned (mkAPIResponse true
                     (PROCESS_SUCCESS_WITH_DATA
                        (String.length (extracted_text r))) r) /\
       (1 <= String.length (extracted_text r))%nat).
  { intros r H.
    pose proof (response_shape Document env u t r H) as (N & _).
    unfold extract_data.
    destruct (process_from_url env u t) as [[r' | e'] t1];
      cbn [fst] in H; inversion H. subst r'. cbn [fst].
    unfold text_length.
    destruct (extracted_text r) as [| a rest]; [congruence |].
    cbn [PyStr.truthy String.length]. split; [reflexivity | lia]. }
  split; [exact A |]. split; [exact B |]. split.
  - intros file_content G P.
    assert (X : exists r, fst (process_from_url env u t) = Result r).
    { unfold process_from_url, process_body, download_file_from_url,
        try_except, bind, call, raise.
      rewrite G, P.
      destruct (extract_pdf_outcome env file_content
                  (t ++ [ev_requests_get])%list)
        as ([[text c] label] & t2 & E & _).
      rewrite E. unfold ret. eexists. reflexivity. }
    destruct X as (r & X). exists r. apply B. exact X.
  - intros e G. apply A.
    unfold process_from_url, process_body, download_file_from_url,
      try_except, bind, call, raise.
    rewrite G. reflexivity.
Qed.

Lemma extract_data_answers_witness :
  exists r, fst (extract_data broken_pdf_env 422 "scan.pdf" [])
            = Returned (mkAPIResponse true
                          (PROCESS_SUCCESS_WITH_DATA
                             (String.length (extracted_text r))) r).
Proof.
  destruct (extract_data_answers unit broken_pdf_env 422 "scan.pdf" [])
    as (_ & _ & H & _).
  exact (H [] eq_refl eq_refl).
Defined.

Lemma trigger_from_runs {Document} (env : Env Document) trigger s t1 t2 r n :
  refine env trigger s t1 = (r, t2) ->
  runs f_enhanced_handwritten_ocr t1 = n ->
  runs f_enhanced_handwritten_ocr t2 = n ->
  trigger = false.
Proof.
  intros R H1 H2.
  pose proof (refine_runs Document env trigger s t1) as N.
  rewrite R in N. cbn [snd] in N.
  destruct trigger; [| reflexivity]. cbn in N. lia.
Qed.

(** X7.  A scanned document for which the enhanced pass does not run keeps
    the text and the confidence of the standard pass, has a confidence of
    at least 60, and is labelled image_pdf when it is a PDF and
    printed_image or image_pdf when it is an image: every other label of a
    scanned document is given only after the enhanced pass has run. *)
Theorem labels_without_enhanced_pass :
  (forall Document (env : Env Document) pdf_bytes t t1 s,
      pdf_front env pdf_bytes t = (inr (inr s), t1) ->
      runs f_enhanced_handwritten_ocr
        (snd (extract_text_from_pdf env pdf_bytes t))
      = runs f_enhanced_handwritten_ocr t ->
      fst (extract_text_from_pdf env pdf_bytes t)
        = inr (sc_text s, sc_conf s, "image_pdf") /\
      60 <= sc_conf s) /\
  (forall Document (env : Env Document) image t t1 s,
      image_front env image t = (inr s, t1) ->
      runs f_enhanced_handwritten_ocr
        (snd (extract_text_from_image env image t))
      = runs f_enhanced_handwritten_ocr t ->
      exists label,
        fst (extract_text_from_image env image t)
          = inr (sc_text s, sc_conf s, label) /\
        60 <= sc_conf s /\
        (label = "printed_image" \/ label = "image_pdf")).
Proof.
  split.
  - intros Document env pdf_bytes t t1 s F N.
    destruct (pdf_after_front Document env pdf_bytes t t1 s F)
      as (text & c & t2 & R & E).
    rewrite E in N |- *. cbn [fst snd] in *.
    pose proof (pdf_front_silent Document env pdf_bytes t) as S.
    rewrite F in S. cbn [snd] in S.
    pose proof (trigger_from_runs env _ _ _ _ _ _ R S N) as T.
    rewrite T, refine_idle in R. inversion R. subst.
    unfold pdf_trigger in T.
    apply orb_false_iff in T. destruct T as [T K].
    apply orb_false_iff in T. destruct T as [T C].
    apply Qlt_bool_false_iff in C.
    split; [| exact C]. do 2 f_equal.
    apply classify_pdf_facts. right. split; [exact C |].
    unfold signal. rewrite T, K. reflexivity.
  - intros Document env image t t1 s F N.
    destruct (image_after_front Document env image t t1 s F)
      as (text & c & t2 & R & E).
    rewrite E in N |- *. cbn [fst snd] in *.
    pose proof (image_front_silent Document env image t) as S.
    rewrite F in S. cbn [snd] in S.
    pose proof (trigger_from_runs env _ _ _ _ _ _ R S N) as T.
    rewrite T, refine_idle in R. inversion R. subst.
    unfold image_trigger in T.
    apply orb_false_iff in T. destruct T as [C T].
    apply Qlt_bool_false_iff in C.
    eexists. split; [reflexivity |]. split; [exact C |].
    unfold classify_image. rewrite T.
    band (sc_conf s); cbn [andb negb]; unfold signal; cbn [orb];
      destruct (Qgt_bool (sc_contour s) (3 # 10)); cbn [negb];
      try (left; reflexivity); try (right; reflexivity); exfalso; lra.
Qed.

Lemma labels_without_enhanced_pass_witness :
  fst (extract_text_from_pdf clean_pdf_env [] [])
    = inr ("text", 90, "image_pdf") /\
  60 <= 90.
Proof.
  destruct labels_without_enhanced_pass as [H _].
  exact (H unit clean_pdf_env [] [] _ _ eq_refl eq_refl).
Defined.

(** X8.  When any of the six library calls of the enhanced pass raises,
    the pass returns the empty text with confidence 0.0, and the document
    keeps the text and the confidence of the standard pass and is labelled
    on that confidence, for a PDF and for an image. *)
Theorem enhanced_failure_is_recovered :
  forall Document (env : Env Document),
    (forall image t e,
        enhanced_chain env image = inl e ->
        fst (enhanced_handwritten_ocr env image t) = inr ("", 0)) /\
    (forall pdf_bytes t t1 s e,
        pdf_front env pdf_bytes t = (inr (inr s), t1) ->
        enhanced_chain env (sc_img s) = inl e ->
        fst (extract_text_from_pdf env pdf_bytes t)
        = inr (sc_text s, sc_conf s,
               classify_pdf (sc_conf s) (sc_texture s) (sc_contour s))) /\
    (forall image t t1 s e,
        image_front env image t = (inr s, t1) ->
        enhanced_chain env (sc_img s) = inl e ->
        fst (extract_text_from_image env image t)
        = inr (sc_text s, sc_conf s,
               classify_image (sc_conf s) (sc_texture s) (sc_contour s))).
Proof.
  intros Document env.
  assert (A : forall image t e,
             enhanced_chain env image = inl e ->
             fst (enhanced_handwritten_ocr env image t) = inr ("", 0)).
  { intros image t e H. rewrite enhanced_by_chain, H. reflexivity. }
  assert (B : forall trigger s t e,
             enhanced_chain env (sc_img s) = inl e ->
             fst (refine env trigger s t) = inr (sc_text s, sc_conf s)).
  { intros trigger s t e H. destruct trigger; [| reflexivity].
    destruct (refine_triggered Document env s t) as (et & ec & t' & E & R).
    rewrite R. cbn [fst].
    pose proof (A (sc_img s) t e H) as X. rewrite E in X. cbn [fst] in X.
    inversion X. reflexivity. }
  split; [exact A |]. split.
  - intros pdf_bytes t t1 s e F H.
    destruct (pdf_after_front Document env pdf_bytes t t1 s F)
      as (text & c & t2 & R & E).
    pose proof (B (pdf_trigger s) s t1 e H) as X.
    rewrite R in X. cbn [fst] in X. inversion X. subst.
    rewrite E. reflexivity.
  - intros image t t1 s e F H.
    destruct (image_after_front Document env image t t1 s F)
      as (text & c & t2 & R & E).
    pose proof (B (image_trigger s) s t1 e H) as X.
    rewrite R in X. cbn [fst] in X. inversion X. subst.
    rewrite E. reflexivity.
Qed.

Lemma enhanced_failure_is_recovered_witness :
  fst (extract_text_from_image crashing_enhanced_env [[0%Z]] [])
  = inr ("std", 50, classify_image 50 false 0).
Proof.
  destruct (enhanced_failure_is_recovered unit crashing_enhanced_env)
    as (_ & _ & H).
  exact (H [[0%Z]] [] _ _ "TesseractError" eq_refl eq_refl).
Defined.

(** ** The pages of a scanned PDF *)

Lemma Forall2_seq_nth {A} (P : nat -> A -> Prop) (ns : list nat)
    (l : list A) (n : nat) :
  Forall2 P ns l -> In n ns -> exists a, P n a.
Proof.
  induction 1 as [| m a ms l' Hp _ IH]; intro Hin.
  - destruct Hin.
  - destruct Hin as [-> | Hin]; [exists a; exact Hp | exact (IH Hin)].
Qed.

(** X9.  A scanned PDF is all or nothing: when the text-layer reader
    raises, when the document cannot be opened, or when the standard pass
    fails on any one page, the result is the error triple, with none of
    the text of the pages that were read. *)
Theorem page_failure_fails_the_document :
  forall Document (env : Env Document) (pdf_bytes : bytes) (t : Trace),
    let failed := inr ("(Error extracting text)", 0, "error_pdf") in
    (forall e, PdfReader_pages env pdf_bytes = inl e ->
               fst (extract_text_from_pdf env pdf_bytes t) = failed) /\
    (forall pages,
        PdfReader_pages env pdf_bytes = inr pages ->
        (String.length
           (PyStr.strip (String.concat "" (map text_or_empty pages)))
         <= 50)%nat ->
        (forall e, fitz_open env pdf_bytes = inl e ->
                   fst (extract_text_from_pdf env pdf_bytes t) = failed) /\
        (forall doc n,
            fitz_open env pdf_bytes = inr doc ->
            (n < fitz_len env doc)%nat ->
            (forall data, ~ page_pass env doc n data) ->
            fst (extract_text_from_pdf env pdf_bytes t) = failed)).
Proof.
  intros Document env pdf_bytes t failed. subst failed.
  split.
  - intros e R.
    unfold extract_text_from_pdf, pdf_body, pdf_front, try_except, bind, call.
    rewrite R. reflexivity.
  - intros pages R L.
    assert (S : (50 <? String.length
                        (PyStr.strip (String.concat "" (map text_or_empty pages))))%nat
                = false).
    { apply Nat.ltb_ge. exact L. }
    split.
    + intros e O.
      unfold extract_text_from_pdf, pdf_body, pdf_front, try_except, bind,
        call.
      rewrite R, S, O. reflexivity.
    + intros doc n O N P.
      unfold extract_text_from_pdf, pdf_body, pdf_front, try_except.
      unfold bind at 1. unfold bind at 1. unfold call at 1.
      rewrite R, S.
      unfold bind at 1. unfold call at 1. rewrite O.
      unfold bind at 1.
      destruct (pdf_pages env doc (seq 0 (fitz_len env doc)) [] [] _)
        as [[e | [all_text confidences]] t2] eqn:K; [reflexivity |].
      exfalso.
      apply pdf_pages_confidences in K. destruct K as (datas & F & _).
      assert (I : In n (seq 0 (fitz_len env doc))).
      { apply in_seq. lia. }
      destruct (Forall2_seq_nth _ _ _ n F I) as (data & X).
      exact (P data X).
Qed.

Lemma bad_page_unreadable (data : list PyVal) :
  ~ page_pass bad_page_env tt 1 data.
Proof.
  intros (np & gray & blurred & processed & txt & R & C & G & A & D & _).
  cbn in R, C, G, A, D.
  inversion R. subst. inversion C. subst. inversion G. subst.
  inversion A. subst. discriminate D.
Qed.

Lemma page_failure_fails_the_document_witness :
  fst (extract_text_from_pdf bad_page_env [] [])
  = inr ("(Error extracting text)", 0, "error_pdf").
Proof.
  destruct (page_failure_fails_the_document unit bad_page_env [] [])
    as (_ & H).
  destruct (H [] eq_refl) as (_ & K); [cbn; lia |].
  apply (K tt 1%nat eq_refl); [cbn; lia | exact bad_page_unreadable].
Defined.




(** ** How often each stage runs *)

Lemma renders_app (a b : Trace) :
  renders (a ++ b)%list = (renders a + renders b)%nat.
Proof. unfold renders. rewrite filter_app, length_app. reflexivity. Qed.

Lemma tally_app (a b : Trace) :
  tally (a ++ b)%list = tally_plus (tally a) (tally b).
Proof.
  unfold tally, tally_plus. rewrite !runs_app, renders_app. reflexivity.
Qed.

Lemma tuple4_eq (a1 a2 a3 a4 b1 b2 b3 b4 : nat) :
  a1 = b1 -> a2 = b2 -> a3 = b3 -> a4 = b4 ->
  (a1, a2, a3, a4) = (b1, b2, b3, b4).
Proof. intros. subst. reflexivity. Qed.

Lemma texture_tally {Document} (env : Env Document) img t :
  tally (snd (detect_handwriting_texture env img t))
  = tally_plus (tally t) (0, 1, 0, 0)%nat.
Proof.
  unfold detect_handwriting_texture, bind, call, enter, ret.
  destruct (cv2_cvtColor env img) as [e | gray]; cbn [snd];
    [rewrite !tally_app; destruct (tally t) as [[[a b] c] d]; cbn;
     apply tuple4_eq; lia |].
  destruct (cv2_Canny env gray) as [e | edges]; cbn [snd];
    [rewrite !tally_app; destruct (tally t) as [[[a b] c] d]; cbn;
     apply tuple4_eq; lia |].
  destruct (cv2_Laplacian_var env gray) as [e | lv]; cbn [snd];
    rewrite !tally_app; destruct (tally t) as [[[a b] c] d]; cbn;
    apply tuple4_eq; lia.
Qed.

Lemma contour_tally {Document} (env : Env Document) img t :
  tally (snd (analyze_contour_irregularity env img t))
  = tally_plus (tally t) (0, 0, 1, 0)%nat.
Proof.
  unfold analyze_contour_irregularity, bind, call, enter, ret.
  destruct (cv2_cvtColor env img) as [e | gray]; cbn [snd];
    [rewrite !tally_app; destruct (tally t) as [[[a b] c] d]; cbn;
     apply tuple4_eq; lia |].
  destruct (cv2_Canny env gray) as [e | edges]; cbn [snd];
    [rewrite !tally_app; destruct (tally t) as [[[a b] c] d]; cbn;
     apply tuple4_eq; lia |].
  destruct (cv2_findContours env edges) as [e | [| c0 cs]]; cbn [snd];
    rewrite !tally_app; destruct (tally t) as [[[a b] c] d]; cbn;
    apply tuple4_eq; lia.
Qed.

Lemma pdf_pages_tally {Document} (env : Env Document) (doc : Document)
    (page_nums : list nat) :
  forall all_text confidences t r t',
    pdf_pages env doc page_nums all_text confidences t = (inr r, t') ->
    tally t'
    = tally_plus (tally t)
        (List.length page_nums, 0, 0, List.length page_nums)%nat.
Proof.
  induction page_nums as [| n rest IH];
    intros all_text confidences t r t' H.
  - cbn [pdf_pages] in H. unfold ret in H. inversion H. subst.
    destruct (tally t') as [[[a b] c] d]. cbn. apply tuple4_eq; lia.
  - cbn [pdf_pages] in H.
    unfold preprocess_image, bind, call, enter, lift in H.
    destruct (fitz_render env doc n) as [e | np_img]; [discriminate H |].
    destruct (cv2_cvtColor env np_img) as [e | gray]; [discriminate H |].
    destruct (cv2_GaussianBlur env gray) as [e | blurred];
      [discriminate H |].
    destruct (cv2_adaptiveThreshold env blurred) as [e | processed];
      [discriminate H |].
    destruct (image_to_data_conf env processed) as [e | data];
      [discriminate H |].
    destruct (image_to_string env cfg_default processed) as [e | page_text];
      [discriminate H |].
    destruct (positive_confs data) as [e | page_conf]; [discriminate H |].
    apply IH in H. rewrite H, !tally_app.
    destruct (tally t) as [[[a b] c] d]. cbn. apply tuple4_eq; lia.
Qed.

(** X11.  On a scanned PDF of n pages that reaches the classification, the
    standard preprocessing runs n times, once per page, while the texture
    detection and the contour analysis run once each, whatever n is; n + 1
    pages are rendered, the first one twice. *)
Theorem signals_sampled_once :
  forall Document (env : Env Document) (pdf_bytes : bytes) (t t1 : Trace)
         (s : Scan),
    pdf_front env pdf_bytes t = (inr (inr s), t1) ->
    exists doc,
      fitz_open env pdf_bytes = inr doc /\
      runs f_preprocess_image t1
        = (runs f_preprocess_image t + fitz_len env doc)%nat /\
      runs f_detect_handwriting_texture t1
        = (runs f_detect_handwriting_texture t + 1)%nat /\
      runs f_analyze_contour_irregularity t1
        = (runs f_analyze_contour_irregularity t + 1)%nat /\
      renders t1 = (renders t + fitz_len env doc + 1)%nat.
Proof.
  intros Document env pdf_bytes t t1 s H.
  unfold pdf_front in H. unfold bind at 1 in H. unfold call at 1 in H.
  destruct (PdfReader_pages env pdf_bytes) as [e | pages];
    [discriminate H |].
  destruct (50 <? _)%nat; [discriminate H |].
  unfold bind at 1 in H. unfold call at 1 in H.
  destruct (fitz_open env pdf_bytes) as [e | doc] eqn:O; [discriminate H |].
  unfold bind at 1 in H.
  destruct (pdf_pages env doc (seq 0 (fitz_len env doc)) [] [] _)
    as [[e | r] t2] eqn:L; [discriminate H |].
  apply pdf_pages_tally in L. rewrite length_seq in L.
  destruct r as [all_text confidences].
  unfold bind at 1 in H. unfold call at 1 in H.
  destruct (fitz_render env doc 0) as [e | np_img]; [discriminate H |].
  unfold bind at 1 in H.
  pose proof (texture_tally env np_img (t2 ++ [ev_fitz_render 0])%list) as T.
  destruct (detect_handwriting_texture env np_img _) as [[e | tx] t3];
    [discriminate H |].
  unfold bind at 1 in H.
  pose proof (contour_tally env np_img t3) as C.
  destruct (analyze_contour_irregularity env np_img _) as [[e | k] t4];
    [discriminate H |].
  unfold ret in H. inversion H. subst. cbn [snd] in T, C.
  exists doc. split; [reflexivity |].
  rewrite T, !tally_app, L, !tally_app in C.
  unfold tally at 1 in C.
  destruct (tally t) as [[[a b] c] d] eqn:Y.
  unfold tally in Y. inversion Y. subst.
  cbn in C. inversion C. repeat split; lia.
Qed.

Lemma signals_sampled_once_witness :
  exists doc,
    fitz_open two_page_env [] = inr doc /\
    runs f_preprocess_image (snd (pdf_front two_page_env [] []))
      = (runs f_preprocess_image [] + fitz_len two_page_env doc)%nat /\
    runs f_detect_handwriting_texture (snd (pdf_front two_page_env [] []))
      = (runs f_detect_handwriting_texture [] + 1)%nat /\
    runs f_analyze_contour_irregularity (snd (pdf_front two_page_env [] []))
      = (runs f_analyze_contour_irregularity [] + 1)%nat /\
    renders (snd (pdf_front two_page_env [] []))
      = (renders [] + fitz_len two_page_env doc + 1)%nat.
Proof.
  exact (signals_sampled_once unit two_page_env [] [] _ _ eq_refl).
Defined.

(** ** The container kind *)

Lemma lower_app (a b : string) : lower (a ++ b) = lower a ++ lower b.
Proof.
  induction a as [| c a IH]; [reflexivity |].
  cbn [append lower]. rewrite IH. reflexivity.
Qed.

Lemma endswith_app (a b : string) : endswith (a ++ b) b = true.
Proof.
  induction a as [| c a IH].
  - cbn [append]. destruct b; cbn [endswith]; rewrite String.eqb_refl;
      reflexivity.
  - cbn [append endswith]. rewrite IH. apply orb_true_r.
Qed.

Lemma endswith_inv (s suffix : string) :
  endswith s suffix = true -> exists p, s = p ++ suffix.
Proof.
  induction s as [| c s IH]; intro H.
  - cbn [endswith] in H. rewrite orb_false_r in H.
    apply String.eqb_eq in H. exists "". exact H.
  - cbn [endswith] in H. apply orb_true_iff in H. destruct H as [H | H].
    + apply String.eqb_eq in H. exists "". exact H.
    + destruct (IH H) as (p & ->). exists (String c p). reflexivity.
Qed.

Lemma length_lower (s : string) : String.length (lower s) = String.length s.
Proof. induction s as [| c s IH]; [reflexivity |]. cbn. rewrite IH. reflexivity. Qed.

Lemma length_append (a b : string) :
  String.length (a ++ b) = (String.length a + String.length b)%nat.
Proof. induction a as [| c a IH]; [reflexivity |]. cbn. rewrite IH. reflexivity. Qed.

(** X12.  A url counts as a PDF exactly when its lower-cased form ends in
    ".pdf": any spelling of the extension in upper or lower case is
    accepted after any prefix, and nothing shorter than four characters or
    ending otherwise is, whatever the content behind the url. *)
Theorem pdf_url_by_suffix :
  forall u : string,
    (is_pdf_url u = true <-> exists p, lower u = p ++ ".pdf") /\
    (forall p e, u = p ++ e -> lower e = ".pdf" -> is_pdf_url u = true) /\
    (is_pdf_url u = true -> (4 <= String.length u)%nat).
Proof.
  intro u.
  assert (A : is_pdf_url u = true <-> exists p, lower u = p ++ ".pdf").
  { unfold is_pdf_url. split.
    - apply endswith_inv.
    - intros (p & ->). apply endswith_app. }
  split; [exact A |]. split.
  - intros p e -> E. apply A. exists (lower p).
    rewrite lower_app, E. reflexivity.
  - intro H. apply A in H. destruct H as (p & H).
    rewrite <- (length_lower u), H, length_append. cbn. lia.
Qed.

Lemma pdf_url_by_suffix_witness :
  is_pdf_url "https://host/Scan.PdF" = true /\
  (4 <= String.length "https://host/Scan.PdF")%nat.
Proof.
  destruct (pdf_url_by_suffix "https://host/Scan.PdF") as (_ & A & B).
  assert (H : is_pdf_url "https://host/Scan.PdF" = true).
  { apply (A "https://host/Scan" ".PdF"); reflexivity. }
  split; [exact H | exact (B H)].
Defined.

(** ** [process_pdf_pages] *)

Lemma render_pages_ok {Document} (penv : PdfEnv Document) (doc : Document)
    (page_nums : list nat) :
  forall pages_data t out t',
    render_pages penv doc page_nums pages_data t = (inr out, t') ->
    exists added,
      out = (pages_data ++ added)%list /\
      Forall2 (renders_page penv doc) page_nums added.
Proof.
  induction page_nums as [| n rest IH]; intros pages_data t out t' H.
  - cbn in H. inversion H. subst. exists []. rewrite app_nil_r.
    split; [reflexivity | constructor].
  - cbn [render_pages] in H.
    destruct (render_pil penv doc n) as [e | img] eqn:R; [discriminate H |].
    apply IH in H. destruct H as (added & -> & F).
    exists (mkPageData (n + 1) img :: added). split.
    + rewrite <- app_assoc. reflexivity.
    + constructor; [| exact F]. split; [reflexivity | exact R].
Qed.

Lemma render_pages_trace {Document} (penv : PdfEnv Document) (doc : Document)
    (page_nums : list nat) :
  forall pages_data t,
    exists mid,
      snd (render_pages penv doc page_nums pages_data t) = (t ++ mid)%list /\
      Forall (fun ev => exists n, ev = fs_render n) mid /\
      (forall e, fst (render_pages penv doc page_nums pages_data t) = inl e ->
                 exists n, In n page_nums /\ render_pil penv doc n = inl e).
Proof.
  induction page_nums as [| n rest IH]; intros pages_data t.
  - exists []. cbn. rewrite app_nil_r.
    split; [reflexivity |]. split; [constructor |]. intros e H. discriminate H.
  - cbn [render_pages].
    destruct (render_pil penv doc n) as [e | img] eqn:R.
    + exists [fs_render n]. cbn [fst snd].
      split; [reflexivity |]. split.
      * constructor; [exists n; reflexivity | constructor].
      * intros e' H. inversion H. subst. exists n. split; [left; reflexivity |].
        exact R.
    + destruct (IH (pages_data ++ [mkPageData (n + 1) img])%list
                  (t ++ [fs_render n])%list) as (mid & S & F & E).
      exists (fs_render n :: mid). rewrite S, <- app_assoc.
      split; [reflexivity |]. split.
      * constructor; [exists n; reflexivity | exact F].
      * intros e H. destruct (E e H) as (m & I & X).
        exists m. split; [right; exact I | exact X].
Qed.

Lemma Forall2_page_numbers {Document} (penv : PdfEnv Document) (doc : Document)
    (ns : list nat) (pages : list PageData) :
  Forall2 (renders_page penv doc) ns pages ->
  map page_number pages = map (fun n => (n + 1)%nat) ns.
Proof.
  induction 1 as [| n pd ns pages [H _] _ IH]; [reflexivity |].
  cbn [map]. rewrite H, IH. reflexivity.
Qed.

(** X13.  When [process_pdf_pages] returns, it returns one entry per page
    of the document, in page order; the entries are numbered 1, 2, ... up
    to the number of pages, and entry number k carries the rendering of
    the page of index k - 1. *)
Theorem pages_are_numbered_from_one :
  forall Document (penv : PdfEnv Document) (pdf_content : bytes)
         (t t' : list FsEvent) (pages : list PageData),
    process_pdf_pages penv pdf_content t = (inr pages, t') ->
    exists tmp_file_path doc,
      tmp_write penv pdf_content = inr tmp_file_path /\
      fitz_open_path penv tmp_file_path = inr doc /\
      List.length pages = doc_len penv doc /\
      map page_number pages = seq 1 (doc_len penv doc) /\
      Forall2 (renders_page penv doc) (seq 0 (doc_len penv doc)) pages.
Proof.
  intros Document penv pdf_content t t' pages H.
  unfold process_pdf_pages in H.
  destruct (tmp_write penv pdf_content) as [e | path] eqn:W;
    [discriminate H |].
  destruct (fitz_open_path penv path) as [e | doc] eqn:O;
    [discriminate H |].
  destruct (render_pages penv doc (seq 0 (doc_len penv doc)) [] _)
    as [r t2] eqn:R.
  inversion H. subst.
  apply render_pages_ok in R. destruct R as (added & -> & F).
  cbn [app]. exists path, doc.
  split; [reflexivity |]. split; [exact O |].
  split; [| split; [| exact F]].
  - apply Forall2_length in F. rewrite length_seq in F. symmetry. exact F.
  - rewrite (Forall2_page_numbers penv doc _ _ F).
    rewrite <- seq_shift. apply map_ext. intro n. lia.
Qed.

Lemma pages_are_numbered_from_one_witness :
  exists tmp_file_path doc,
    tmp_write (three_page_penv None) [] = inr tmp_file_path /\
    fitz_open_path (three_page_penv None) tmp_file_path = inr doc /\
    List.length [mkPageData 1 (mkPIL "RGB" [[0%Z]]);
                 mkPageData 2 (mkPIL "RGB" [[1%Z]]);
                 mkPageData 3 (mkPIL "RGB" [[2%Z]])]
      = doc_len (three_page_penv None) doc /\
    map page_number [mkPageData 1 (mkPIL "RGB" [[0%Z]]);
                     mkPageData 2 (mkPIL "RGB" [[1%Z]]);
                     mkPageData 3 (mkPIL "RGB" [[2%Z]])]
      = seq 1 (doc_len (three_page_penv None) doc) /\
    Forall2 (renders_page (three_page_penv None) doc)
      (seq 0 (doc_len (three_page_penv None) doc))
      [mkPageData 1 (mkPIL "RGB" [[0%Z]]);
       mkPageData 2 (mkPIL "RGB" [[1%Z]]);
       mkPageData 3 (mkPIL "RGB" [[2%Z]])].
Proof.
  exact (pages_are_numbered_from_one unit (three_page_penv None) [] [] _ _
           eq_refl).
Defined.

(** X14.  Once the temporary file is written, [process_pdf_pages] ends by
    removing it on every path: the last thing it does is the one
    [os.unlink], after closing the document when it could be opened,
    whether the pages were rendered or one of them raised.  A failure is
    raised again with the message of the call that failed. *)
Theorem temporary_file_is_removed :
  forall Document (penv : PdfEnv Document) (pdf_content : bytes)
         (t : list FsEvent) (tmp_file_path : string),
    tmp_write penv pdf_content = inr tmp_file_path ->
    exists mid,
      snd (process_pdf_pages penv pdf_content t)
        = (t ++ [fs_tmp_write; fs_fitz_open] ++ mid ++ [fs_unlink])%list /\
      ~ In fs_unlink mid /\
      (forall e, fitz_open_path penv tmp_file_path = inl e ->
                 mid = [] /\
                 fst (process_pdf_pages penv pdf_content t) = inl e) /\
      (forall doc, fitz_open_path penv tmp_file_path = inr doc ->
         (exists rendered,
             mid = (rendered ++ [fs_doc_close])%list /\
             Forall (fun ev => exists n, ev = fs_render n) rendered) /\
         (forall e, fst (process_pdf_pages penv pdf_content t) = inl e ->
                    exists n, (n < doc_len penv doc)%nat /\
                              render_pil penv doc n = inl e)).
Proof.
  intros Document penv pdf_content t path W.
  unfold process_pdf_pages. rewrite W.
  destruct (fitz_open_path penv path) as [e | doc] eqn:O.
  - exists []. cbn [fst snd app].
    split; [rewrite <- app_assoc; reflexivity |].
    split; [intros [] |]. split.
    + intros e' H. inversion H. split; reflexivity.
    + intros doc H. discriminate H.
  - destruct (render_pages_trace penv doc (seq 0 (doc_len penv doc)) []
                (t ++ [fs_tmp_write; fs_fitz_open])%list)
      as (rendered & S & F & E).
    destruct (render_pages penv doc (seq 0 (doc_len penv doc)) [] _)
      as [r t2].
    cbn [fst snd] in *. subst t2.
    exists (rendered ++ [fs_doc_close])%list.
    split; [rewrite <- !app_assoc; reflexivity |].
    split.
    + intro I. apply in_app_or in I. destruct I as [I | [I | []]].
      * rewrite Forall_forall in F. destruct (F _ I) as (n & X).
        discriminate X.
      * discriminate I.
    + split; [intros e H; discriminate H |].
      intros doc' H. inversion H. subst doc'. split.
      * exists rendered. split; [reflexivity | exact F].
      * intros e X. destruct (E e X) as (n & I & R).
        exists n. split; [| exact R]. apply in_seq in I. lia.
Qed.

Lemma temporary_file_is_removed_witness :
  exists mid,
    snd (process_pdf_pages (three_page_penv (Some 1%nat)) [] [])
      = ([] ++ [fs_tmp_write; fs_fitz_open] ++ mid ++ [fs_unlink])%list /\
    ~ In fs_unlink mid /\
    (forall e,
        fitz_open_path (three_page_penv (Some 1%nat)) "/tmp/tmpab12.pdf"
          = inl e ->
        mid = [] /\
        fst (process_pdf_pages (three_page_penv (Some 1%nat)) [] []) = inl e) /\
    (forall doc,
        fitz_open_path (three_page_penv (Some 1%nat)) "/tmp/tmpab12.pdf"
          = inr doc ->
        (exists rendered,
            mid = (rendered ++ [fs_doc_close])%list /\
            Forall (fun ev => exists n, ev = fs_render n) rendered) /\
        (forall e,
            fst (process_pdf_pages (three_page_penv (Some 1%nat)) [] [])
              = inl e ->
            exists n, (n < doc_len (three_page_penv (Some 1%nat)) doc)%nat /\
                      render_pil (three_page_penv (Some 1%nat)) doc n = inl e)).
Proof.
  exact (temporary_file_is_removed unit (three_page_penv (Some 1%nat)) [] []
           "/tmp/tmpab12.pdf" eq_refl).
Defined.

(** ** [preprocess_image_advanced] *)



(** ** The structural signals *)

Lemma count_positive_bounds (w : Z) (a : ndarray) :
  Forall (fun row => Z.of_nat (List.length row) = w) a ->
  (0 <= count_positive a <= Z.of_nat (List.length a) * w)%Z.
Proof.
  induction 1 as [| row rows Hrow _ IH].
  - cbn. lia.
  - cbn [count_positive fold_right List.length].
    fold (count_positive rows).
    pose proof (filter_length_le (fun v => (0 <? v)%Z) row) as L.
    rewrite Nat2Z.inj_succ. nia.
Qed.

(** X16.  For a non-empty rectangular edge map the edge density lies
    between 0 and 1; in particular an edge map without a single edge pixel
    has density 0 and cannot raise the texture flag by its density. *)
Theorem edge_density_is_a_ratio :
  forall edges : ndarray,
    rectangular edges ->
    (0 < shape0 edges * shape1 edges)%Z ->
    0 <= edge_density edges /\ edge_density edges <= 1 /\
    (count_positive edges = 0%Z ->
     Qgt_bool (edge_density edges) edge_threshold = false).
Proof.
  intros edges R P.
  pose proof (count_positive_bounds (shape1 edges) edges R) as [C1 C2].
  fold (shape0 edges) in C2.
  unfold edge_density.
  assert (D : 0 < inject_Z (shape0 edges * shape1 edges)).
  { change 0 with (inject_Z 0). rewrite <- Zlt_Qlt. exact P. }
  assert (N1 : 0 <= inject_Z (count_positive edges)).
  { change 0 with (inject_Z 0). rewrite <- Zle_Qle. exact C1. }
  assert (N2 : inject_Z (count_positive edges)
               <= inject_Z (shape0 edges * shape1 edges)).
  { rewrite <- Zle_Qle. exact C2. }
  split; [apply Qle_shift_div_l; [exact D | lra] |].
  split; [apply Qle_shift_div_r; [exact D | lra] |].
  intro Z0. rewrite Z0. apply Qgt_bool_false_iff.
  unfold edge_threshold, Qdiv. rewrite Qmult_0_l. discriminate.
Qed.

Lemma boundary_edges_rectangular : rectangular boundary_edges.
Proof. repeat constructor. Qed.

Lemma edge_density_is_a_ratio_witness :
  0 <= edge_density boundary_edges /\ edge_density boundary_edges <= 1 /\
  (count_positive boundary_edges = 0%Z ->
   Qgt_bool (edge_density boundary_edges) edge_threshold = false).
Proof.
  apply (edge_density_is_a_ratio boundary_edges boundary_edges_rectangular).
  vm_compute. reflexivity.
Defined.

Lemma sumQ_unit_range (l : list Q) :
  Forall unit_range l ->
  0 <= sumQ l /\ sumQ l <= inject_Z (Z.of_nat (List.length l)).
Proof.
  induction 1 as [| q l [Hq1 Hq2] _ [IH1 IH2]].
  - split; vm_compute; discriminate.
  - rewrite inject_length_cons. cbn [sumQ fold_right].
    fold (sumQ l). split; lra.
Qed.

Lemma mean_or_zeroQ_unit_range (l : list Q) :
  Forall unit_range l -> unit_range (mean_or_zeroQ l).
Proof.
  intro H. destruct l as [| q l'] eqn:E.
  - cbn. split; [apply Qle_refl | discriminate].
  - cbn [mean_or_zeroQ]. unfold unit_range. rewrite np_mean_correct.
    destruct (sumQ_unit_range _ H) as [S1 S2].
    assert (P : 0 < inject_Z (Z.of_nat (List.length (q :: l')))).
    { rewrite inject_length_cons.
      assert (0 <= inject_Z (Z.of_nat (List.length l'))).
      { change 0 with (inject_Z 0). rewrite <- Zle_Qle. lia. }
      lra. }
    unfold mean_Q. split.
    + apply Qle_shift_div_l; [exact P | lra].
    + apply Qle_shift_div_r; [exact P | lra].
Qed.

Lemma code_irregularity_unit_range (c : Contour) :
  qualifying c = true -> isoperimetric c -> unit_range (code_irregularity c).
Proof.
  intros Q I. apply Qgt_bool_iff in Q. unfold isoperimetric in I.
  unfold code_irregularity.
  set (num := 4 * np_pi * contourArea c) in *.
  set (den := arcLength c * arcLength c + (1 # 1000000)).
  assert (D : 0 < den) by apply denominator_positive.
  assert (N : 0 < num).
  { unfold num. assert (0 < np_pi) by reflexivity.
    apply Qmult_lt_0_compat; [| lra].
    apply Qmult_lt_0_compat; [reflexivity | assumption]. }
  assert (L : num <= den) by (unfold den; lra).
  assert (C0 : 0 <= num / den) by (apply Qle_shift_div_l; lra).
  assert (C1 : num / den <= 1) by (apply Qle_shift_div_r; lra).
  unfold unit_range. rewrite Qabs_pos by lra. split; lra.
Qed.

(** X17.  When every contour of area above 10 satisfies the isoperimetric
    inequality 4 pi area <= perimeter^2, as the outline of a plane region
    does, the irregularity score lies between 0 and 1, the range the
    docstring of the function announces. *)
Theorem contour_score_in_unit_range :
  forall Document (env : Env Document) (image : ndarray) (t : Trace)
         (gray edges : ndarray) (contours : list Contour),
    cv2_cvtColor env image = inr gray ->
    cv2_Canny env gray = inr edges ->
    cv2_findContours env edges = inr contours ->
    Forall (fun c => qualifying c = true -> isoperimetric c) contours ->
    exists score,
      fst (analyze_contour_irregularity env image t) = inr score /\
      0 <= score /\ score <= 1.
Proof.
  intros Document env image t gray edges contours Hg He Hc I.
  exists (mean_or_zeroQ (map code_irregularity (filter qualifying contours))).
  split.
  - unfold analyze_contour_irregularity, bind, call, enter, ret.
    rewrite Hg, He, Hc. rewrite <- irregularities_filter.
    destruct contours; reflexivity.
  - apply mean_or_zeroQ_unit_range. apply Forall_forall.
    intros q Hq. apply in_map_iff in Hq. destruct Hq as (c & <- & Hin).
    apply filter_In in Hin. destruct Hin as [Hin Qc].
    rewrite Forall_forall in I.
    exact (code_irregularity_unit_range c Qc (I c Hin Qc)).
Qed.

Lemma square_contours_isoperimetric :
  Forall (fun c => qualifying c = true -> isoperimetric c)
    [speck_contour; square_contour].
Proof.
  repeat constructor; intros _; vm_compute; discriminate.
Qed.

Lemma contour_score_in_unit_range_witness :
  exists score,
    fst (analyze_contour_irregularity square_env [[0%Z]] []) = inr score /\
    0 <= score /\ score <= 1.
Proof.
  exact (contour_score_in_unit_range unit square_env [[0%Z]] [] [[0%Z]]
           blank_edges [speck_contour; square_contour]
           eq_refl eq_refl eq_refl square_contours_isoperimetric).
Defined.

(** ** The two labels outside the decision table *)

Lemma pdf_front_early_trace {Document} (env : Env Document) (b : bytes)
    (t t1 : Trace) (early : string * Q * string) :
  pdf_front env b t = (inr (inl early), t1) ->
  t1 = (t ++ [ev_PdfReader])%list /\
  exists pages,
    PdfReader_pages env b = inr pages /\
    fst (fst early)
    = PyStr.strip (String.concat "" (map text_or_empty pages)).
Proof.
  intro H. pose proof H as H0.
  unfold pdf_front in H. unfold bind at 1 in H. unfold call at 1 in H.
  destruct (PdfReader_pages env b) as [e | pages] eqn:R; [discriminate H |].
  destruct (50 <? _)%nat eqn:L.
  - unfold ret in H. inversion H. split; [reflexivity |].
    exists pages. split; reflexivity.
  - exfalso.
    destruct (pdf_front_early env b t t1 early H0) as (text & -> & X).
    unfold bind at 1 in H. unfold call at 1 in H.
    destruct (fitz_open env b) as [e | doc]; [discriminate H |].
    unfold bind at 1 in H.
    destruct (pdf_pages env doc _ [] [] _) as [[e | [all_text confs]] t2];
      [discriminate H |].
    unfold bind at 1 in H. unfold call at 1 in H.
    destruct (fitz_render env doc 0) as [e | np_img]; [discriminate H |].
    unfold bind at 1 in H.
    destruct (detect_handwriting_texture env np_img _) as [[e | tx] t3];
      [discriminate H |].
    unfold bind at 1 in H.
    destruct (analyze_contour_irregularity env np_img _) as [[e | k] t4];
      [discriminate H |].
    unfold ret in H. discriminate H.
Qed.

(** X18.  The label text_pdf is returned only for the fast path: with the
    confidence 95, a text of more than 50 characters that is the stripped
    text layer, and no library call but the reading of that layer.  The
    label error_pdf is returned only after a failure, with the confidence
    0.0 and the text "(Error extracting text)".  No scanned document gets
    either label. *)
Theorem labels_outside_the_table :
  forall Document (env : Env Document) (pdf_bytes : bytes) (t t' : Trace)
         (text : string) (c : Q) (label : string),
    extract_text_from_pdf env pdf_bytes t = (inr (text, c, label), t') ->
    (label = "text_pdf" ->
       c = 95 /\ (50 < String.length text)%nat /\
       t' = (t ++ [ev_PdfReader])%list /\
       exists pages,
         PdfReader_pages env pdf_bytes = inr pages /\
         text = PyStr.strip (String.concat "" (map text_or_empty pages))) /\
    (label = "error_pdf" ->
       c = 0 /\ text = "(Error extracting text)" /\
       exists e, fst (pdf_front env pdf_bytes t) = inl e).
Proof.
  intros Document env pdf_bytes t t' text c label H.
  destruct (extract_pdf_outcome env pdf_bytes t) as (r & t2 & E & O).
  rewrite E in H. inversion H. subst r t2. clear H.
  split; intro L; subst label.
  - inversion O; subst.
    + match goal with
      | F : pdf_front _ _ _ = (inr (inl _), _) |- _ =>
          destruct (pdf_front_early_trace env _ _ _ _ F) as (T & pages & R & X)
      end.
      cbn [fst] in X. split; [reflexivity |]. split; [assumption |].
      split; [exact T |]. exists pages. split; assumption.
    + match goal with
      | K : classify_pdf ?a ?b ?d = "text_pdf" |- _ =>
          pose proof (classify_pdf_facts a b d) as (I & _); rewrite K in I
      end.
      cbn in I. repeat (destruct I as [I | I]; try discriminate I).
      destruct I.
  - inversion O; subst.
    + split; [reflexivity |]. split; [reflexivity |].
      match goal with
      | F : pdf_front _ _ _ = (inl ?e, _) |- _ =>
          exists e; rewrite F; reflexivity
      end.
    + match goal with
      | K : classify_pdf ?a ?b ?d = "error_pdf" |- _ =>
          pose proof (classify_pdf_facts a b d) as (I & _); rewrite K in I
      end.
      cbn in I. repeat (destruct I as [I | I]; try discriminate I).
      destruct I.
Qed.

Lemma labels_outside_the_table_witness :
  (0 : Q) = 0 /\ "(Error extracting text)" = "(Error extracting text)" /\
  exists e, fst (pdf_front bad_page_env [] []) = inl e.
Proof.
  destruct (labels_outside_the_table unit bad_page_env [] [] _ _ _ _ eq_refl)
    as (_ & H).
  exact (H eq_refl).
Defined.
